(** * Fashion sustainability agents: a shallow embedding

    The development follows the Python package [src]:
    - [src/config.py]                          ([Settings])
    - [src/tools/web_search.py]                ([SustainabilityWebSearchTool])
    - [src/agents/fashion_analyzer.py]         ([FashionMaterialAnalyzer])
    - [src/agents/sustainability_estimator.py] ([SustainabilityEstimator])
    - [src/agents/orchestrator.py]             ([CollaborativeAgentOrchestrator])

    Python values are an inductive type, floats are IEEE binary64 values
    ([spec_float]), exceptions are values of [exn], and code that talks to
    a provider runs in a monad [M] that threads the provider state and
    records every boundary crossing in a trace. *)

From Stdlib Require Import String Ascii List ZArith Bool Lia.
From Stdlib Require Import Floats.SpecFloat.
Import ListNotations.
Open Scope string_scope.
Set Warnings "-register-all".

(** ** Python values *)

(** A Python [float] is a binary64 number. *)
Definition float : Type := spec_float.

(** The literals [0.0] and [1.0]. *)
Definition float_zero : float := S754_zero false.
Definition float_one : float := S754_finite false 4503599627370496 (-52).

(** [float(n)] for an [int]: round to nearest even; a magnitude beyond
    the binary64 range is an [OverflowError] in Python, seen here as an
    infinity. *)
Definition float_of_int (z : Z) : float := binary_normalize 53 1024 z 0 false.

(** The values a parsed model response or a serialised result is made
    of.  A [dict] keeps its insertion order, so it is a list of entries. *)
Inductive pyval : Type :=
| PNone
| PBool (b : bool)
| PInt (z : Z)
| PFloat (f : float)
| PStr (s : string)
| PList (l : list pyval)
| PDict (d : list (string * pyval)).

Definition pydict : Type := list (string * pyval).

(** [type(v).__name__] *)
Definition type_name (v : pyval) : string :=
  match v with
  | PNone => "NoneType"
  | PBool _ => "bool"
  | PInt _ => "int"
  | PFloat _ => "float"
  | PStr _ => "str"
  | PList _ => "list"
  | PDict _ => "dict"
  end.

(** [key in d], read as the value stored under [key]. *)
Fixpoint dict_lookup (d : pydict) (key : string) : option pyval :=
  match d with
  | [] => None
  | (k, v) :: rest => if String.eqb k key then Some v else dict_lookup rest key
  end.

(** [d.get(key, default)] *)
Definition dict_get (d : pydict) (key : string) (default : pyval) : pyval :=
  match dict_lookup d key with
  | Some v => v
  | None => default
  end.

(** ** Exceptions *)

Inductive exn : Type :=
| RuntimeError (msg : string)
| ValueError (msg : string)
| TypeError (msg : string)
| AttributeError (msg : string)
| OverflowError (msg : string)
| ProviderError (cls msg : string).

(** The outcome of code that may raise. *)
Definition result (A : Type) : Type := (exn + A)%type.

Definition ok {A : Type} (a : A) : result A := inr a.
Definition throw {A : Type} (e : exn) : result A := inl e.

Definition rbind {A B : Type} (r : result A) (k : A -> result B) : result B :=
  match r with
  | inl e => inl e
  | inr a => k a
  end.

Definition rmap {A B : Type} (f : A -> B) (r : result A) : result B :=
  rbind r (fun a => ok (f a)).

(** A list comprehension whose body may raise: elements are handled in
    order and the first exception ends the loop. *)
Fixpoint rmapM {A B : Type} (f : A -> result B) (l : list A) : result (list B) :=
  match l with
  | [] => ok []
  | x :: rest =>
      rbind (f x) (fun y => rbind (rmapM f rest) (fun ys => ok (y :: ys)))
  end.

(** ** The libraries and providers the package calls

    Nothing below is code of the package: the chat model client, the
    Tavily search tool, LangChain's structured parser and prompt
    templates, and CPython's own [repr] and [float(str)].  They are the
    fields of one interface, and every statement holds for each of its
    implementations. *)

(** [ResponseSchema(name=..., description=..., type=...)]; LangChain's
    default for [type] is ["string"]. *)
Record ResponseSchema : Type := mkSchema {
  schema_name : string;
  schema_description : string;
  schema_type : string
}.

(** The two ways the package builds a [ChatPromptTemplate]. *)
Inductive ChatPromptTemplate : Type :=
| from_messages (msgs : list (string * string))
| from_template (template : string).

(** A template with the variables fixed by [.partial(...)]. *)
Record Prompt : Type := mkPrompt {
  prompt_template : ChatPromptTemplate;
  prompt_partial : pydict
}.

Class External : Type := {
  (** state of the outside world (providers, network) *)
  world : Type;
  (** chat model clients, and what a request is made of *)
  ChatModel : Type;
  messages : Type;
  (** [ChatOpenAI(model=..., temperature=..., api_key=...)] *)
  ChatOpenAI : string -> pyval -> string -> ChatModel;
  (** [llm.invoke(messages).content], or the exception it raised *)
  llm_invoke : ChatModel -> messages -> world -> result string * world;
  (** [TavilySearchResults(k=..., tavily_api_key=...).run(query)] *)
  tavily_run : Z -> string -> string -> world -> result pyval * world;
  (** [StructuredOutputParser.from_response_schemas(schemas).parse(text)];
      [inl detail] stands for an [OutputParserException] whose text is
      [detail] *)
  parser_parse : list ResponseSchema -> string -> string + pydict;
  (** [parser.get_format_instructions()] *)
  get_format_instructions : list ResponseSchema -> string;
  (** [prompt.format_messages(...)] with its keyword arguments *)
  format_messages : Prompt -> pydict -> messages;
  (** [repr(v)] *)
  py_repr : pyval -> string;
  (** [float(s)] for a [str], [None] when the text is not a number *)
  float_of_str : string -> option float
}.

(** ** What a run leaves behind *)

(** Every crossing of the package boundary: a model call with its
    reply, a query handed to the search tool, a request sent to the
    search provider with its reply. *)
Inductive event {E : External} : Type :=
| LlmInvoke (client : ChatModel) (request : messages) (reply : result string)
| SearchRun (query : string)
| TavilyRequest (k : Z) (query : string) (reply : result pyval).

(** Model calls and provider requests leave the process. *)
Definition is_outbound {E : External} (ev : event) : bool :=
  match ev with
  | LlmInvoke _ _ _ => true
  | SearchRun _ => false
  | TavilyRequest _ _ _ => true
  end.

Definition outbound_calls {E : External} (t : list event) : list event :=
  filter is_outbound t.

(** The queries handed to the search tool, in order. *)
Fixpoint research_queries {E : External} (t : list event) : list string :=
  match t with
  | [] => []
  | SearchRun q :: rest => q :: research_queries rest
  | _ :: rest => research_queries rest
  end.

(** What the providers answered. *)
Inductive reply : Type :=
| ModelReply (r : result string)
| SearchReply (r : result pyval).

Fixpoint replies {E : External} (t : list event) : list reply :=
  match t with
  | [] => []
  | LlmInvoke _ _ r :: rest => ModelReply r :: replies rest
  | SearchRun _ :: rest => replies rest
  | TavilyRequest _ _ r :: rest => SearchReply r :: replies rest
  end.

(** ** The monad of effectful code

    A computation takes the world and yields its outcome, the new world
    and the events it caused.  An exception keeps the events that came
    before it. *)
Definition M {E : External} (A : Type) : Type :=
  world -> result A * world * list event.

Definition ret {E : External} {A : Type} (a : A) : M A :=
  fun w => (inr a, w, []).

Definition raise {E : External} {A : Type} (e : exn) : M A :=
  fun w => (inl e, w, []).

Definition bind {E : External} {A B : Type} (m : M A) (k : A -> M B) : M B :=
  fun w =>
    match m w with
    | (inl e, w1, t1) => (inl e, w1, t1)
    | (inr a, w1, t1) =>
        match k a w1 with
        | (r, w2, t2) => (r, w2, (t1 ++ t2)%list)
        end
    end.

Definition lift {E : External} {A : Type} (r : result A) : M A :=
  fun w => (r, w, []).

Definition emit {E : External} (ev : event) : M unit :=
  fun w => (inr tt, w, [ev]).

Declare Scope py_scope.
Delimit Scope py_scope with py.
Notation "x <- m ;; k" := (bind m (fun x => k))
  (at level 100, m at next level, right associativity) : py_scope.
Notation "m ;;; k" := (bind m (fun _ => k))
  (at level 100, right associativity) : py_scope.
Open Scope py_scope.

Definition outcome {E : External} {A : Type} (x : result A * world * list event) : result A :=
  fst (fst x).
Definition final_world {E : External} {A : Type} (x : result A * world * list event) : world :=
  snd (fst x).
Definition trace {E : External} {A : Type} (x : result A * world * list event) : list event :=
  snd x.

(** One model call. *)
Definition call_llm {E : External} (client : ChatModel) (request : messages) : M string :=
  fun w =>
    match llm_invoke client request w with
    | (r, w1) => (r, w1, [LlmInvoke client request r])
    end.

(** One request to the search provider. *)
Definition call_tavily {E : External} (k : Z) (key query : string) : M pyval :=
  fun w =>
    match tavily_run k key query w with
    | (r, w1) => (r, w1, [TavilyRequest k query r])
    end.

(** ** Built-in conversions *)

(** [str(v)] *)
Definition py_str {E : External} (v : pyval) : string :=
  match v with
  | PStr s => s
  | _ => py_repr v
  end.

(** [float(v)] *)
Definition py_float {E : External} (v : pyval) : result float :=
  match v with
  | PFloat f => ok f
  | PInt z =>
      match float_of_int z with
      | S754_infinity _ => throw (OverflowError "int too large to convert to float")
      | f => ok f
      end
  | PBool b => ok (if b then float_one else float_zero)
  | PStr s =>
      match float_of_str s with
      | Some f => ok f
      | None => throw (ValueError ("could not convert string to float: " ++ py_repr v))
      end
  | _ =>
      throw (TypeError ("float() argument must be a string or a real number, not '"
                        ++ type_name v ++ "'"))
  end.

(** [iter(v)], as a [for] loop or a comprehension walks it. *)
Definition py_iter (v : pyval) : result (list pyval) :=
  match v with
  | PList l => ok l
  | PDict d => ok (map (fun kv => PStr (fst kv)) d)
  | PStr s => ok (map (fun c => PStr (String c EmptyString)) (list_ascii_of_string s))
  | _ => throw (TypeError ("'" ++ type_name v ++ "' object is not iterable"))
  end.

(** [item.get(key, default)] on a value that need not be a [dict]. *)
Definition py_get (item : pyval) (key : string) (default : pyval) : result pyval :=
  match item with
  | PDict d => ok (dict_get d key default)
  | _ => throw (AttributeError ("'" ++ type_name item ++ "' object has no attribute 'get'"))
  end.

(** Truth value of an [Optional[str]]: [None] and [""] are false. *)
Definition truthy (s : option string) : bool :=
  match s with
  | None => false
  | Some "" => false
  | Some _ => true
  end.

(** [s or default] for a [str]. *)
Definition str_or (s default : string) : string :=
  match s with
  | "" => default
  | _ => s
  end.

(** The text of a present key; only read where [truthy] holds. *)
Definition key_text (s : option string) : string :=
  match s with
  | Some k => k
  | None => ""
  end.

(** ** [src/config.py] *)

Record Settings : Type := mkSettings {
  openai_api_key : option string;
  tavily_api_key : option string;
  fashion_analyzer_model : string;
  sustainability_analyzer_model : string
}.

(** ** [src/tools/web_search.py] *)

Record WebSearchResult : Type := mkWebSearchResult {
  query : string;
  raw_output : string
}.

(** The LangChain tools the wrapper can hold: the Tavily tool, or a
    [Tool(name=..., description=..., func=...)] around a local function. *)
Inductive Tool : Type :=
| TavilySearchResults (k : Z) (tavily_api_key : string)
| FuncTool (name description : string) (func : string -> string).

Module SustainabilityWebSearchTool.

Record t : Type := mk {
  _k : Z;
  _tavily_api_key : option string;
  _tool : Tool
}.

Definition _disabled_search (_ : string) : string :=
  "Web search is currently disabled. Provide `TAVILY_API_KEY` in the "
  ++ "environment to enable live sustainability research.".

Definition _build_tool (k : Z) (key : option string) : Tool :=
  if truthy key then TavilySearchResults k (key_text key)
  else FuncTool "disabled_web_search"
         "Fallback tool used when no web search provider is configured."
         _disabled_search.

(** [__init__(self, tavily_api_key=None, *, k=5)] *)
Definition __init__ (key : option string) (k : Z) : t :=
  {| _k := k; _tavily_api_key := key; _tool := _build_tool k key |}.

Definition default_k : Z := 5.

Section Run.
Context {E : External}.

(** [self._tool.run(query)]: the Tavily tool asks the provider, a
    function tool applies its function. *)
Definition tool_run (tool : Tool) (q : string) : M pyval :=
  match tool with
  | TavilySearchResults k key => call_tavily k key q
  | FuncTool _ _ func => ret (PStr (func q))
  end.

Definition run (self : t) (q : string) : M WebSearchResult :=
  emit (SearchRun q) ;;;
  output <- tool_run (_tool self) q ;;
  ret {| query := q; raw_output := py_str output |}.

End Run.

End SustainabilityWebSearchTool.

(** ** [src/agents/fashion_analyzer.py] *)

Notation "'let?' x ':=' r 'in' k" := (rbind r (fun x => k))
  (at level 10, x name, r at level 100, k at level 200) : py_scope.

Record MaterialComponent : Type := mkMaterialComponent {
  name : string;
  percentage : float;
  weight_grams : float
}.

Record FashionAnalysis : Type := mkFashionAnalysis {
  garment_summary : string;
  components : list MaterialComponent;
  total_weight_grams : option float
}.

(** [except OutputParserException as exc: raise RuntimeError(f"Failed
    to parse LLM response: {exc}") from exc], shared by both agents. *)
Definition parse_or_raise {E : External} (parser : list ResponseSchema) (content : string)
  : M pydict :=
  match parser_parse parser content with
  | inl exc => raise (RuntimeError ("Failed to parse LLM response: " ++ exc))
  | inr parsed => ret parsed
  end.

Module FashionMaterialAnalyzer.
Section WithExternal.
Context {E : External}.

Record t : Type := mk {
  _llm : ChatModel;
  _parser : list ResponseSchema;
  _prompt : Prompt
}.

Definition _build_parser : list ResponseSchema :=
  [ mkSchema "garment_summary"
      "High level textual summary of every garment in the image."
      "string";
    mkSchema "components"
      ("Array of material components with `name`, `percentage`, and "
       ++ "`weight_grams` keys. Percentages should sum to roughly 100%.")
      "list";
    mkSchema "total_weight_grams"
      "Estimated total weight of all garments combined in grams."
      "float" ].

Definition _build_prompt (parser : list ResponseSchema) : Prompt :=
  let format_instructions := get_format_instructions parser in
  mkPrompt
    (from_messages
       [ ("system",
          "You are Agent A, an expert textile analyst specializing in "
          ++ "identifying garment materials, their composition, and weight."
          ++ " Use the provided image to identify each distinct garment and "
          ++ "estimate material breakdown. Provide realistic percentages and "
          ++ "weight estimates.");
         ("human",
          "Image reference: {image_reference}
User context: {user_context}
Return JSON matching: {format_instructions}") ])
    [("format_instructions", PStr format_instructions)].

(** [__init__(self, llm=None)], with the cached settings as an argument. *)
Definition __init__ (settings : Settings) (llm : option ChatModel) : M t :=
  llm <- match llm with
         | Some client => ret client
         | None =>
             if negb (truthy (openai_api_key settings)) then
               raise (RuntimeError
                        "OPENAI_API_KEY is required to instantiate FashionMaterialAnalyzer.")
             else
               ret (ChatOpenAI (fashion_analyzer_model settings) (PInt 0)
                      (key_text (openai_api_key settings)))
         end ;;
  let parser := _build_parser in
  ret {| _llm := llm; _parser := parser; _prompt := _build_prompt parser |}.

(** One element of the [components] comprehension. *)
Definition component_of_item (item : pyval) : result MaterialComponent :=
  let? n := py_get item "name" (PStr "") in
  let? p := py_get item "percentage" (PFloat float_zero) in
  let? percentage := py_float p in
  let? w := py_get item "weight_grams" (PFloat float_zero) in
  let? weight_grams := py_float w in
  ok {| name := py_str n; percentage := percentage; weight_grams := weight_grams |}.

(** The body of [analyze] after the response has been parsed. *)
Definition analysis_of_parsed (parsed : pydict) : result FashionAnalysis :=
  let components_raw := dict_get parsed "components" (PList []) in
  let? items := py_iter components_raw in
  let? components := rmapM component_of_item items in
  let total_weight := dict_get parsed "total_weight_grams" PNone in
  let? total_weight_grams :=
    match total_weight with
    | PNone => ok None
    | _ => rmap Some (py_float total_weight)
    end in
  ok {| garment_summary := py_str (dict_get parsed "garment_summary" (PStr ""));
        components := components;
        total_weight_grams := total_weight_grams |}.

Definition analyze (self : t) (image_reference user_context : string)
  : M FashionAnalysis :=
  let messages :=
    format_messages (_prompt self)
      [ ("image_reference", PStr image_reference);
        ("user_context", PStr (str_or user_context "No additional context provided.")) ] in
  content <- call_llm (_llm self) messages ;;
  parsed <- parse_or_raise (_parser self) content ;;
  lift (analysis_of_parsed parsed).

End WithExternal.
End FashionMaterialAnalyzer.

(** ** [src/agents/sustainability_estimator.py] *)

Record SustainabilityEstimates : Type := mkSustainabilityEstimates {
  water_liters : float;
  co2_kg : float;
  energy_kwh : float;
  methodology_notes : string;
  research_context : string
}.

(** The literal [0.2]. *)
Definition float_0_2 : float := S754_finite false 7205759403792794 (-55).

Module SustainabilityEstimator.
Section WithExternal.
Context {E : External}.

Record t : Type := mk {
  _llm : ChatModel;
  _parser : list ResponseSchema;
  _prompt : Prompt;
  _search_tool : SustainabilityWebSearchTool.t
}.

Definition _build_parser : list ResponseSchema :=
  [ mkSchema "water_liters"
      "Estimated average water consumption in liters for the garments."
      "float";
    mkSchema "co2_kg"
      "Estimated carbon emissions in kilograms of CO2e."
      "float";
    mkSchema "energy_kwh"
      "Estimated energy consumption in kilowatt hours."
      "float";
    mkSchema "methodology_notes"
      "Short justification that explains the estimation approach."
      "string";
    mkSchema "research_context"
      "Summary of supporting research pulled from the web search tool."
      "string" ].

Definition _build_prompt (parser : list ResponseSchema) : Prompt :=
  let format_instructions := get_format_instructions parser in
  mkPrompt
    (from_template
       "
You are Agent B, a sustainability analyst collaborating with a textile analyst.
You are given structured JSON describing garments, their material composition,
and estimated weights. Use reputable sustainability research to estimate the
average water usage (liters), CO2 equivalent emissions (kg), and energy
consumption (kWh) associated with producing these garments.

Always combine the provided research context and your domain knowledge to
produce a concise but transparent methodology. Ensure that numbers are realistic
for modern apparel manufacturing supply chains.

Return JSON matching: {format_instructions}

Material analysis JSON:
{analysis_json}

Relevant research notes:
{research_notes}
")
    [("format_instructions", PStr format_instructions)].

(** [__init__(self, analysis_agent=None, *, search_tool=None)] *)
Definition __init__ (settings : Settings) (analysis_agent : option ChatModel)
    (search_tool : option SustainabilityWebSearchTool.t) : M t :=
  analysis_agent <-
    match analysis_agent with
    | Some client => ret client
    | None =>
        if negb (truthy (openai_api_key settings)) then
          raise (RuntimeError
                   "OPENAI_API_KEY is required to instantiate SustainabilityEstimator.")
        else
          ret (ChatOpenAI (sustainability_analyzer_model settings) (PFloat float_0_2)
                 (key_text (openai_api_key settings)))
    end ;;
  let parser := _build_parser in
  ret {| _llm := analysis_agent;
         _parser := parser;
         _prompt := _build_prompt parser;
         _search_tool :=
           match search_tool with
           | Some tool => tool
           | None =>
               SustainabilityWebSearchTool.__init__ (tavily_api_key settings)
                 SustainabilityWebSearchTool.default_k
           end |}.

Definition _build_research_query (analysis : FashionAnalysis) : string :=
  let dominant_materials := map name (components analysis) in
  "Lifecycle assessment water CO2 energy consumption for "
  ++ String.concat ", " (firstn 3 dominant_materials).

(** The [analysis_json] dictionary handed to the prompt. *)
Definition analysis_json (analysis : FashionAnalysis) : pyval :=
  PDict
    [ ("garment_summary", PStr (garment_summary analysis));
      ("total_weight_grams",
       match total_weight_grams analysis with
       | Some f => PFloat f
       | None => PNone
       end);
      ("components",
       PList (map (fun component =>
                     PDict [ ("name", PStr (name component));
                             ("percentage", PFloat (percentage component));
                             ("weight_grams", PFloat (weight_grams component)) ])
                (components analysis))) ].

(** The [return] of [estimate], from the parsed response. *)
Definition estimates_of_parsed (parsed : pydict) : result SustainabilityEstimates :=
  let? water_liters := py_float (dict_get parsed "water_liters" (PFloat float_zero)) in
  let? co2_kg := py_float (dict_get parsed "co2_kg" (PFloat float_zero)) in
  let? energy_kwh := py_float (dict_get parsed "energy_kwh" (PFloat float_zero)) in
  ok {| water_liters := water_liters;
        co2_kg := co2_kg;
        energy_kwh := energy_kwh;
        methodology_notes := py_str (dict_get parsed "methodology_notes" (PStr ""));
        research_context := py_str (dict_get parsed "research_context" (PStr "")) |}.

Definition estimate (self : t) (analysis : FashionAnalysis) : M SustainabilityEstimates :=
  match components analysis with
  | [] =>
      raise (ValueError "Fashion analysis does not contain any components to estimate.")
  | _ :: _ =>
      let research_query := _build_research_query analysis in
      research_result <- SustainabilityWebSearchTool.run (_search_tool self) research_query ;;
      let message :=
        format_messages (_prompt self)
          [ ("analysis_json", analysis_json analysis);
            ("research_notes", PStr (raw_output research_result)) ] in
      content <- call_llm (_llm self) message ;;
      parsed <- parse_or_raise (_parser self) content ;;
      lift (estimates_of_parsed parsed)
  end.

End WithExternal.
End SustainabilityEstimator.

(** ** [src/agents/orchestrator.py] *)

Record OrchestratedResponse : Type := mkOrchestratedResponse {
  fashion_analysis : FashionAnalysis;
  sustainability_estimates : SustainabilityEstimates
}.

(** [dataclasses.asdict] on the two flat dataclasses: one entry per
    field, in declaration order. *)
Definition asdict_component (component : MaterialComponent) : pyval :=
  PDict [ ("name", PStr (name component));
          ("percentage", PFloat (percentage component));
          ("weight_grams", PFloat (weight_grams component)) ].

Definition asdict_estimates (estimates : SustainabilityEstimates) : pyval :=
  PDict [ ("water_liters", PFloat (water_liters estimates));
          ("co2_kg", PFloat (co2_kg estimates));
          ("energy_kwh", PFloat (energy_kwh estimates));
          ("methodology_notes", PStr (methodology_notes estimates));
          ("research_context", PStr (research_context estimates)) ].

(** An [Optional[float]] as a Python value. *)
Definition pyval_of_optional_float (o : option float) : pyval :=
  match o with
  | Some f => PFloat f
  | None => PNone
  end.

Definition to_dict (self : OrchestratedResponse) : pyval :=
  PDict
    [ ("fashion_analysis",
       PDict
         [ ("garment_summary", PStr (garment_summary (fashion_analysis self)));
           ("total_weight_grams",
            pyval_of_optional_float (total_weight_grams (fashion_analysis self)));
           ("components",
            PList (map asdict_component (components (fashion_analysis self)))) ]);
      ("sustainability_estimates", asdict_estimates (sustainability_estimates self)) ].

(** The orchestrator only calls [analyze] on its first agent and
    [estimate] on its second; any object with that method will do. *)
Class FashionAgent {E : External} (A : Type) : Type :=
  analyze : A -> string -> string -> M FashionAnalysis.

Class SustainabilityAgent {E : External} (B : Type) : Type :=
  estimate : B -> FashionAnalysis -> M SustainabilityEstimates.

#[export] Instance FashionMaterialAnalyzer_agent {E : External}
  : FashionAgent FashionMaterialAnalyzer.t := FashionMaterialAnalyzer.analyze.

#[export] Instance SustainabilityEstimator_agent {E : External}
  : SustainabilityAgent SustainabilityEstimator.t := SustainabilityEstimator.estimate.

Module CollaborativeAgentOrchestrator.
Section WithExternal.
Context {E : External}.

Record t (A B : Type) : Type := mk {
  _fashion_agent : A;
  _sustainability_agent : B
}.
Arguments mk {A B} _ _.
Arguments _fashion_agent {A B} _.
Arguments _sustainability_agent {A B} _.

(** [__init__(self, fashion_agent=None, sustainability_agent=None)] *)
Definition __init__ (settings : Settings)
    (fashion_agent : option FashionMaterialAnalyzer.t)
    (sustainability_agent : option SustainabilityEstimator.t)
  : M (t FashionMaterialAnalyzer.t SustainabilityEstimator.t) :=
  fashion_agent <-
    match fashion_agent with
    | Some agent => ret agent
    | None => FashionMaterialAnalyzer.__init__ settings None
    end ;;
  sustainability_agent <-
    match sustainability_agent with
    | Some agent => ret agent
    | None => SustainabilityEstimator.__init__ settings None None
    end ;;
  ret (mk fashion_agent sustainability_agent).

Definition run {A B : Type} {FA : FashionAgent A} {SA : SustainabilityAgent B}
    (self : t A B) (image_reference user_prompt : string) : M OrchestratedResponse :=
  fashion_analysis <- analyze (_fashion_agent self) image_reference user_prompt ;;
  sustainability_estimates <- estimate (_sustainability_agent self) fashion_analysis ;;
  ret {| fashion_analysis := fashion_analysis;
         sustainability_estimates := sustainability_estimates |}.

End WithExternal.
Arguments mk {A B} _ _.
Arguments _fashion_agent {A B} _.
Arguments _sustainability_agent {A B} _.
End CollaborativeAgentOrchestrator.

(** ** Definitions used by the statements *)

(** The fixed text of the disabled search tool. *)
Definition disabled_search_advisory : string :=
  "Web search is currently disabled. Provide `TAVILY_API_KEY` in the environment to enable live sustainability research.".

(** The tool [_build_tool] falls back to. *)
Definition disabled_tool : Tool :=
  FuncTool "disabled_web_search"
    "Fallback tool used when no web search provider is configured."
    SustainabilityWebSearchTool._disabled_search.

(** The specification's wording of the research query (section 8): the
    first three _distinct_ component names, in their original order.
    [distinct_names] keeps the first occurrence of every name. *)
Fixpoint distinct_names (names : list string) : list string :=
  match names with
  | [] => []
  | n :: rest => n :: remove string_dec n (distinct_names rest)
  end.

Definition research_query_of_distinct_names (analysis : FashionAnalysis) : string :=
  "Lifecycle assessment water CO2 energy consumption for "
  ++ String.concat ", " (firstn 3 (distinct_names (map name (components analysis)))).

(** Modelled from the spec: the deserialisation half of the round trip
    of section 8.  The package only has [to_dict]; nothing in it reads
    the nested structure back.  [from_dict] reads the key layout that
    [to_dict] writes and accepts a field only at its documented type. *)
Definition component_from_dict (v : pyval) : option MaterialComponent :=
  match v with
  | PDict d =>
      match dict_lookup d "name", dict_lookup d "percentage", dict_lookup d "weight_grams" with
      | Some (PStr n), Some (PFloat p), Some (PFloat g) =>
          Some {| name := n; percentage := p; weight_grams := g |}
      | _, _, _ => None
      end
  | _ => None
  end.

Fixpoint components_from_list (l : list pyval) : option (list MaterialComponent) :=
  match l with
  | [] => Some []
  | v :: rest =>
      match component_from_dict v, components_from_list rest with
      | Some c, Some cs => Some (c :: cs)
      | _, _ => None
      end
  end.

Definition optional_float_from_pyval (v : pyval) : option (option float) :=
  match v with
  | PNone => Some None
  | PFloat f => Some (Some f)
  | _ => None
  end.

Definition analysis_from_dict (v : pyval) : option FashionAnalysis :=
  match v with
  | PDict d =>
      match dict_lookup d "garment_summary",
            dict_lookup d "total_weight_grams",
            dict_lookup d "components" with
      | Some (PStr s), Some tw, Some (PList l) =>
          match optional_float_from_pyval tw, components_from_list l with
          | Some total, Some cs =>
              Some {| garment_summary := s; components := cs; total_weight_grams := total |}
          | _, _ => None
          end
      | _, _, _ => None
      end
  | _ => None
  end.

Definition estimates_from_dict (v : pyval) : option SustainabilityEstimates :=
  match v with
  | PDict d =>
      match dict_lookup d "water_liters", dict_lookup d "co2_kg",
            dict_lookup d "energy_kwh", dict_lookup d "methodology_notes",
            dict_lookup d "research_context" with
      | Some (PFloat wl), Some (PFloat co2), Some (PFloat en), Some (PStr notes), Some (PStr ctx) =>
          Some {| water_liters := wl; co2_kg := co2; energy_kwh := en;
                  methodology_notes := notes; research_context := ctx |}
      | _, _, _, _, _ => None
      end
  | _ => None
  end.

Definition from_dict (v : pyval) : option OrchestratedResponse :=
  match v with
  | PDict d =>
      match dict_lookup d "fashion_analysis", dict_lookup d "sustainability_estimates" with
      | Some fa, Some se =>
          match analysis_from_dict fa, estimates_from_dict se with
          | Some analysis, Some estimates =>
              Some {| fashion_analysis := analysis; sustainability_estimates := estimates |}
          | _, _ => None
          end
      | _, _ => None
      end
  | _ => None
  end.

(** What a model step (call, parse, convert) yields, as a function of
    the model's reply alone. *)
Definition outcome_of_reply {E : External} {A : Type} (parser : list ResponseSchema)
    (convert : pydict -> result A) (r : result string) : result A :=
  let? content := r in
  match parser_parse parser content with
  | inl exc => throw (RuntimeError ("Failed to parse LLM response: " ++ exc))
  | inr parsed => convert parsed
  end.

(** *** Sample data *)

Definition float_100 : float := Eval cbv in float_of_int 100.
Definition float_200 : float := Eval cbv in float_of_int 200.

(** The extraction result of the cotton T-shirt scenario. *)
Definition cotton_tshirt : FashionAnalysis :=
  {| garment_summary := "Cotton T-shirt";
     components := [ {| name := "cotton"; percentage := float_100; weight_grams := float_200 |} ];
     total_weight_grams := Some float_200 |}.

(** An extraction result in which no material was recognised. *)
Definition nothing_recognised : FashionAnalysis :=
  {| garment_summary := "Nothing recognisable";
     components := [];
     total_weight_grams := None |}.

(** Two garments that share a material: a name occurs twice. *)
Definition cotton_twice : FashionAnalysis :=
  {| garment_summary := "Cotton shirt and cotton-blend trousers";
     components :=
       [ {| name := "cotton"; percentage := float_100; weight_grams := float_200 |};
         {| name := "cotton"; percentage := float_100; weight_grams := float_100 |};
         {| name := "polyester"; percentage := float_100; weight_grams := float_100 |};
         {| name := "wool"; percentage := float_100; weight_grams := float_200 |} ];
     total_weight_grams := None |}.

(** *** Test doubles

    A scripted environment: the world counts the provider calls made so
    far, the model always answers with the same text, and the parser
    reads every answer as the given dictionary or rejects it. *)
Definition scripted (parsed : string + pydict) : External :=
  {| world := nat;
     ChatModel := string;
     messages := (Prompt * pydict)%type;
     ChatOpenAI := fun model _ _ => model;
     llm_invoke := fun _ _ w => (inr "{}", S w);
     tavily_run := fun _ _ _ w => (inr (PList []), S w);
     parser_parse := fun _ _ => parsed;
     get_format_instructions := fun _ => "";
     format_messages := fun p kwargs => (p, kwargs);
     py_repr := type_name;
     float_of_str := fun _ => None |}.

Definition no_credentials : Settings :=
  {| openai_api_key := None;
     tavily_api_key := None;
     fashion_analyzer_model := "gpt-4o-mini";
     sustainability_analyzer_model := "gpt-4o-mini" |}.

(** A parsed extraction response with one cotton component. *)
Definition cotton_response : pydict :=
  [ ("garment_summary", PStr "Cotton T-shirt");
    ("components",
     PList [ PDict [ ("name", PStr "cotton");
                     ("percentage", PFloat float_100);
                     ("weight_grams", PFloat float_200) ] ]);
    ("total_weight_grams", PFloat float_200) ].

(** A parsed extraction response that names one material and nothing
    else, and the analysis it is turned into. *)
Definition partial_response : pydict :=
  [ ("components", PList [ PDict [ ("name", PStr "cotton") ] ]) ].

Definition partial_analysis : FashionAnalysis :=
  {| garment_summary := "";
     components := [ {| name := "cotton"; percentage := float_zero; weight_grams := float_zero |} ];
     total_weight_grams := None |}.

(** Agents built around injected clients, search disabled. *)
Definition scripted_analyzer (parsed : string + pydict)
  : @FashionMaterialAnalyzer.t (scripted parsed) :=
  let E := scripted parsed in
  {| FashionMaterialAnalyzer._llm := "agent-a" : @ChatModel E;
     FashionMaterialAnalyzer._parser := FashionMaterialAnalyzer._build_parser;
     FashionMaterialAnalyzer._prompt :=
       FashionMaterialAnalyzer._build_prompt FashionMaterialAnalyzer._build_parser |}.

Definition scripted_estimator (parsed : string + pydict)
  : @SustainabilityEstimator.t (scripted parsed) :=
  let E := scripted parsed in
  {| SustainabilityEstimator._llm := "agent-b" : @ChatModel E;
     SustainabilityEstimator._parser := SustainabilityEstimator._build_parser;
     SustainabilityEstimator._prompt :=
       SustainabilityEstimator._build_prompt SustainabilityEstimator._build_parser;
     SustainabilityEstimator._search_tool :=
       SustainabilityWebSearchTool.__init__ None SustainabilityWebSearchTool.default_k |}.

(** ** Further definitions for the remaining code *)

(** The model calls of a trace: which client was asked what, in order. *)
Fixpoint model_calls {E : External} (t : list event) : list (ChatModel * messages) :=
  match t with
  | [] => []
  | LlmInvoke client request _ :: rest => (client, request) :: model_calls rest
  | _ :: rest => model_calls rest
  end.

(** The requests sent to the search provider: result cap and query. *)
Fixpoint provider_requests {E : External} (t : list event) : list (Z * string) :=
  match t with
  | [] => []
  | TavilyRequest k q _ :: rest => (k, q) :: provider_requests rest
  | _ :: rest => provider_requests rest
  end.

(** A scripted environment whose search provider gives a fixed answer,
    possibly an exception. *)
Definition scripted_search (answer : result pyval) (parsed : string + pydict) : External :=
  {| world := nat;
     ChatModel := string;
     messages := (Prompt * pydict)%type;
     ChatOpenAI := fun model _ _ => model;
     llm_invoke := fun _ _ w => (inr "{}", S w);
     tavily_run := fun _ _ _ w => (answer, S w);
     parser_parse := fun _ _ => parsed;
     get_format_instructions := fun _ => "";
     format_messages := fun p kwargs => (p, kwargs);
     py_repr := type_name;
     float_of_str := fun _ => None |}.

(** The provider is unreachable. *)
Definition unreachable : result pyval :=
  inl (ProviderError "ConnectionError" "search provider unreachable").

(** An estimator around an injected client, with a search key. *)
Definition searching_estimator (answer : result pyval) (parsed : string + pydict)
  : @SustainabilityEstimator.t (scripted_search answer parsed) :=
  let E := scripted_search answer parsed in
  {| SustainabilityEstimator._llm := "agent-b" : @ChatModel E;
     SustainabilityEstimator._parser := SustainabilityEstimator._build_parser;
     SustainabilityEstimator._prompt :=
       SustainabilityEstimator._build_prompt SustainabilityEstimator._build_parser;
     SustainabilityEstimator._search_tool :=
       SustainabilityWebSearchTool.__init__ (Some "tvly-key")
         SustainabilityWebSearchTool.default_k |}.

Definition openai_only : Settings :=
  {| openai_api_key := Some "sk-key";
     tavily_api_key := None;
     fashion_analyzer_model := "gpt-4o-mini";
     sustainability_analyzer_model := "gpt-4o-mini" |}.

(** The estimates a response without any of the five keys is read as. *)
Definition default_estimates : SustainabilityEstimates :=
  {| water_liters := float_zero; co2_kg := float_zero; energy_kwh := float_zero;
     methodology_notes := ""; research_context := "" |}.

(** A parsed extraction response whose components are bare names. *)
Definition bare_names_response : pydict :=
  [ ("garment_summary", PStr "Cotton T-shirt");
    ("components", PList [ PStr "cotton" ]) ].

(** A parsed extraction response with explicit nulls. *)
Definition null_total_response : pydict :=
  [ ("components", PList [ PDict [ ("name", PStr "cotton") ] ]);
    ("total_weight_grams", PNone) ].

Definition null_percentage_item : pydict :=
  [ ("name", PStr "cotton"); ("percentage", PNone) ].

(** ** [src/tools/image_material_tool.py] and [src/main.py]

    The entry point works above the agents: it reads the image file,
    runs the orchestrator and prints or writes the result. *)

(** What the entry point can raise: an exception of the agents, passed
    on as it is, [FileNotFoundError] from the image helper, or an
    [OSError] of the file system. *)
Inductive host_exn : Type :=
| AgentError (e : exn)
| FileNotFoundError (msg : string)
| OSError (msg : string).

(** The standard-library calls of the two modules.  Paths are named by
    their text. *)
Class Host {E : External} : Type := {
  (** [str(Path(s))] *)
  path_str : string -> string;
  (** [str(Path(s).expanduser().resolve())] *)
  path_resolve : string -> world -> string;
  (** [Path(s).exists()] *)
  path_exists : string -> world -> bool;
  (** [Path(s).read_bytes()]; [inl text] stands for an [OSError] *)
  read_bytes : string -> world -> string + list Byte.byte;
  (** [mimetypes.guess_type(path)[0]] *)
  guess_type : string -> option string;
  (** [base64.b64encode(data).decode("utf-8")] *)
  b64encode : list Byte.byte -> string;
  (** [json.dumps(payload, indent=n)] *)
  json_dumps : pyval -> Z -> string;
  (** [Path(s).write_text(text)]; [Some text] stands for an [OSError] *)
  write_text : string -> string -> world -> option string * world
}.

(** What the entry point does besides what the agents do. *)
Inductive host_event {E : External} : Type :=
| AgentEvent (ev : event)
| FileRead (path : string)
| FileWritten (path text : string)
| Printed (text : string).

(** The output of a run of the entry point: files written and lines
    printed. *)
Definition is_output {E : External} (ev : host_event) : bool :=
  match ev with
  | FileWritten _ _ => true
  | Printed _ => true
  | _ => false
  end.

Definition outputs {E : External} (t : list host_event) : list host_event :=
  filter is_output t.

Definition file_reads {E : External} (t : list host_event) : list host_event :=
  filter (fun ev => match ev with FileRead _ => true | _ => false end) t.

(** The monad of the entry point. *)
Definition H {E : External} (A : Type) : Type :=
  world -> (host_exn + A) * world * list host_event.

Definition hret {E : External} {A : Type} (a : A) : H A :=
  fun w => (inr a, w, []).

Definition hraise {E : External} {A : Type} (e : host_exn) : H A :=
  fun w => (inl e, w, []).

Definition hbind {E : External} {A B : Type} (m : H A) (k : A -> H B) : H B :=
  fun w =>
    match m w with
    | (inl e, w1, t1) => (inl e, w1, t1)
    | (inr a, w1, t1) =>
        match k a w1 with
        | (r, w2, t2) => (r, w2, (t1 ++ t2)%list)
        end
    end.

Notation "x <~ m ;; k" := (hbind m (fun x => k))
  (at level 100, m at next level, right associativity) : py_scope.

(** Code of the agents, run from the entry point. *)
Definition agents {E : External} {A : Type} (m : M A) : H A :=
  fun w =>
    match m w with
    | (inl e, w1, t) => (inl (AgentError e), w1, map AgentEvent t)
    | (inr a, w1, t) => (inr a, w1, map AgentEvent t)
    end.

Definition houtcome {E : External} {A : Type} (x : (host_exn + A) * world * list host_event)
  : host_exn + A := fst (fst x).
Definition hworld {E : External} {A : Type} (x : (host_exn + A) * world * list host_event)
  : world := snd (fst x).
Definition htrace {E : External} {A : Type} (x : (host_exn + A) * world * list host_event)
  : list host_event := snd x.

Section ImageMaterialTool.
Context {E : External} {HO : Host}.

(** [mime_type or "application/octet-stream"] *)
Definition _detect_mime_type (path : string) : string :=
  match guess_type path with
  | Some mime_type => str_or mime_type "application/octet-stream"
  | None => "application/octet-stream"
  end.

Definition encode_image_to_base64 (image_path : string) : H (string * string) :=
  fun w =>
    let path := path_resolve image_path w in
    if negb (path_exists path w) then
      (inl (FileNotFoundError ("Image not found: " ++ path)), w, [])
    else
      let mime_type := _detect_mime_type path in
      match read_bytes path w with
      | inl text => (inl (OSError text), w, [FileRead path])
      | inr data => (inr (mime_type, b64encode data), w, [FileRead path])
      end.

Definition build_data_uri (image_path : string) : H string :=
  r <~ encode_image_to_base64 image_path ;;
  hret ("data:" ++ fst r ++ ";base64," ++ snd r).

End ImageMaterialTool.

(** [argparse.Namespace] of the entry point: [image], [--prompt]
    (default [""]) and [--output] (default [None]). *)
Record Namespace : Type := mkNamespace {
  image : string;
  prompt : string;
  output : option string
}.

Section Main.
Context {E : External} {HO : Host}.

Definition normalize_image_reference (image : string) : H string :=
  fun w =>
    let path := path_str image in
    if path_exists path w then build_data_uri path w else (inr image, w, []).

Definition print (text : string) : H unit :=
  fun w => (inr tt, w, [Printed text]).

Definition path_write_text (path text : string) : H unit :=
  fun w =>
    match write_text path text w with
    | (Some err, w1) => (inl (OSError err), w1, [])
    | (None, w1) => (inr tt, w1, [FileWritten path text])
    end.

(** [main()], from the settings the environment gives and the parsed
    command line. *)
Definition main (settings : Settings) (args : Namespace) : H unit :=
  orchestrator <~ agents (CollaborativeAgentOrchestrator.__init__ settings None None) ;;
  image_reference <~ normalize_image_reference (image args) ;;
  response <~ agents (CollaborativeAgentOrchestrator.run orchestrator
                        image_reference (prompt args)) ;;
  let payload := to_dict response in
  match output args with
  | Some out =>
      (_ <~ path_write_text (path_str out) (json_dumps payload 2) ;;
       print ("Results written to " ++ path_str out))
  | None => print (json_dumps payload 2)
  end.

(** The last stage of [main] on its own: write or print the payload. *)
Definition emit_payload (args : Namespace) (payload : pyval) : H unit :=
  match output args with
  | Some out =>
      (_ <~ path_write_text (path_str out) (json_dumps payload 2) ;;
       print ("Results written to " ++ path_str out))
  | None => print (json_dumps payload 2)
  end.

End Main.

(** A scripted host: the listed files exist, every name resolves to
    itself, and the encoders give fixed text. *)
Definition scripted_host (parsed : string + pydict)
    (files : list (string * list Byte.byte)) (mime : option string)
  : @Host (scripted parsed) :=
  {| path_str := fun s => s;
     path_resolve := fun s _ => s;
     path_exists := fun s _ => existsb (String.eqb s) (map fst files);
     read_bytes := fun s _ =>
       match find (fun f => String.eqb s (fst f)) files with
       | Some f => inr (snd f)
       | None => inl "unreadable"
       end;
     guess_type := fun _ => mime;
     b64encode := fun _ => "aGVsbG8=";
     json_dumps := fun _ _ => "{}";
     write_text :=
       (fun _ _ (w : nat) => (None, S w))
       : string -> string -> @world (scripted parsed)
         -> option string * @world (scripted parsed) |}.

Definition shirt_png : list (string * list Byte.byte) :=
  [ ("shirt.png", [Byte.x68; Byte.x65; Byte.x6c; Byte.x6c; Byte.x6f]) ].

(** * Properties *)

(** ** The monad *)

Section MonadFacts.
Context {E : External}.

(** [M] is a monad, pointwise in the world. *)
Lemma bind_ret_l {A B : Type} (a : A) (k : A -> M B) (w : world) :
  bind (ret a) k w = k a w.
Proof. unfold bind, ret. destruct (k a w) as [[r w1] t]. reflexivity. Qed.

Lemma bind_ret_r {A : Type} (m : M A) (w : world) :
  bind m ret w = m w.
Proof.
  unfold bind, ret. destruct (m w) as [[[e|a] w1] t]; [reflexivity|].
  rewrite app_nil_r. reflexivity.
Qed.

Lemma bind_assoc {A B C : Type} (m : M A) (k : A -> M B) (h : B -> M C) (w : world) :
  bind (bind m k) h w = bind m (fun a => bind (k a) h) w.
Proof.
  unfold bind. destruct (m w) as [[[e|a] w1] t1]; [reflexivity|].
  destruct (k a w1) as [[[e|b] w2] t2]; [reflexivity|].
  destruct (h b w2) as [[r w3] t3]. rewrite app_assoc. reflexivity.
Qed.

(** An exception skips what follows and keeps the trace so far. *)
Lemma bind_raise {A B : Type} (e : exn) (k : A -> M B) (w : world) :
  bind (raise e) k w = (inl e, w, []).
Proof. reflexivity. Qed.

Lemma research_queries_app (t1 t2 : list event) :
  research_queries (t1 ++ t2) = (research_queries t1 ++ research_queries t2)%list.
Proof.
  induction t1 as [|ev t1 IH]; simpl; [reflexivity|].
  destruct ev; simpl; rewrite IH; reflexivity.
Qed.

Lemma replies_app (t1 t2 : list event) :
  replies (t1 ++ t2) = (replies t1 ++ replies t2)%list.
Proof.
  induction t1 as [|ev t1 IH]; simpl; [reflexivity|].
  destruct ev; simpl; rewrite IH; reflexivity.
Qed.

End MonadFacts.

(** ** The search tool *)

Section SearchFacts.
Context {E : External}.

Lemma disabled_search_text (q : string) :
  SustainabilityWebSearchTool._disabled_search q = disabled_search_advisory.
Proof. reflexivity. Qed.

Lemma build_tool_without_key (k : Z) (key : option string) :
  truthy key = false -> SustainabilityWebSearchTool._build_tool k key = disabled_tool.
Proof.
  intros Hkey. unfold SustainabilityWebSearchTool._build_tool.
  rewrite Hkey. reflexivity.
Qed.


(** What [run] does, by the outcome of the wrapped tool. *)
Lemma run_unfold (self : SustainabilityWebSearchTool.t) (q : string) (w : world) :
  SustainabilityWebSearchTool.run self q w =
    match SustainabilityWebSearchTool.tool_run (SustainabilityWebSearchTool._tool self) q w with
    | (inl e, w1, t) => (inl e, w1, SearchRun q :: t)
    | (inr output, w1, t) =>
        (inr {| query := q; raw_output := py_str output |}, w1, (SearchRun q :: t ++ [])%list)
    end.
Proof.
  unfold SustainabilityWebSearchTool.run, bind, emit, ret.
  destruct (SustainabilityWebSearchTool.tool_run _ q w) as [[[e|output] w1] t]; reflexivity.
Qed.

(** The search tool hands over exactly the query it was given, once. *)
Lemma run_research_queries (self : SustainabilityWebSearchTool.t) (q : string) (w : world) :
  research_queries (trace (SustainabilityWebSearchTool.run self q w)) = [q].
Proof.
  rewrite run_unfold.
  destruct self as [k key tool]; simpl.
  destruct tool as [k' key'|nm descr func]; simpl.
  - unfold call_tavily. destruct (tavily_run k' key' q w) as [[e|output] w1]; reflexivity.
  - reflexivity.
Qed.

End SearchFacts.

(** C4. Without a search credential ([None] or the empty string), the
    search operation answers every query with the fixed advisory text
    of the disabled tool, leaves the world as it was, and its only event
    is the query itself: no call leaves the process. *)
Theorem search_disabled_without_credential {E : External}
    (key : option string) (k : Z) (q : string) (w : world) :
  truthy key = false ->
  SustainabilityWebSearchTool.run (SustainabilityWebSearchTool.__init__ key k) q w
    = (inr {| query := q;
              raw_output :=
                "Web search is currently disabled. Provide `TAVILY_API_KEY` in the environment to enable live sustainability research." |},
       w, [SearchRun q])
  /\ outbound_calls
       (trace (SustainabilityWebSearchTool.run
                 (SustainabilityWebSearchTool.__init__ key k) q w)) = [].
Proof.
  intros Hkey.
  assert (Hrun : SustainabilityWebSearchTool.run
                   (SustainabilityWebSearchTool.__init__ key k) q w
                 = (inr {| query := q; raw_output := disabled_search_advisory |},
                    w, [SearchRun q])).
  { rewrite run_unfold. simpl.
    rewrite (build_tool_without_key k key Hkey). reflexivity. }
  split.
  - exact Hrun.
  - rewrite Hrun. reflexivity.
Qed.

Lemma search_disabled_without_credential_witness :
  truthy None = false
  /\ SustainabilityWebSearchTool.run (E := scripted (inr []))
       (SustainabilityWebSearchTool.__init__ None 5) "anything" 0%nat
     = (inr {| query := "anything"; raw_output := disabled_search_advisory |},
        0%nat, [SearchRun "anything"]).
Proof.
  split.
  - reflexivity.
  - exact (proj1 (search_disabled_without_credential (E := scripted (inr []))
                    None 5 "anything" 0%nat eq_refl)).
Defined.

(** C10. The result of a search carries the query it was given,
    unchanged, and its text is [str(output)] of whatever the wrapped
    tool returned: a string as it is, any other value through its
    textual form.  When the tool raises, its exception is the outcome. *)
Theorem search_result_wraps_query_and_text {E : External}
    (self : SustainabilityWebSearchTool.t) (q : string) (w : world) :
  (match SustainabilityWebSearchTool.tool_run (SustainabilityWebSearchTool._tool self) q w with
   | (inr output, w1, _) =>
       outcome (SustainabilityWebSearchTool.run self q w)
       = inr {| query := q; raw_output := py_str output |}
   | (inl e, w1, _) =>
       outcome (SustainabilityWebSearchTool.run self q w) = inl e
   end)
  /\ (forall r, outcome (SustainabilityWebSearchTool.run self q w) = inr r -> query r = q)
  /\ (forall s, py_str (PStr s) = s)
  /\ (forall v, (forall s, v <> PStr s) -> py_str v = py_repr v).
Proof.
  repeat split.
  - rewrite run_unfold.
    destruct (SustainabilityWebSearchTool.tool_run _ q w) as [[[e|output] w1] t]; reflexivity.
  - intros r. rewrite run_unfold.
    destruct (SustainabilityWebSearchTool.tool_run _ q w) as [[[e|output] w1] t];
      unfold outcome; simpl; intros Hr; [discriminate|].
    injection Hr as <-. reflexivity.
  - intros v Hv. destruct v; try reflexivity. exfalso. exact (Hv s eq_refl).
Qed.

(** ** The estimation step *)

Section EstimateFacts.
Context {E : External}.

(** What follows the research lookup in [estimate]: the model call, the
    parser and the conversion of the parsed fields. *)
Lemma model_step_trace (client : ChatModel) (request : messages)
    (parser : list ResponseSchema) {A : Type} (convert : pydict -> result A) (w : world) :
  trace ((content <- call_llm client request ;;
          parsed <- parse_or_raise parser content ;;
          lift (convert parsed)) w)
  = [LlmInvoke client request (fst (llm_invoke client request w))].
Proof.
  unfold bind, call_llm, parse_or_raise, lift, raise, ret, trace.
  destruct (llm_invoke client request w) as [[e|content] w1]; simpl; [reflexivity|].
  destruct (parser_parse parser content) as [exc|parsed]; reflexivity.
Qed.

(** On a non-empty analysis the trace of [estimate] is the trace of the
    lookup, followed by at most one model call. *)
Lemma estimate_trace (self : SustainabilityEstimator.t) (analysis : FashionAnalysis) (w : world) :
  components analysis <> [] ->
  exists rest,
    trace (SustainabilityEstimator.estimate self analysis w)
    = (trace (SustainabilityWebSearchTool.run (SustainabilityEstimator._search_tool self)
                (SustainabilityEstimator._build_research_query analysis) w) ++ rest)%list
    /\ research_queries rest = [].
Proof.
  intros Hne. unfold SustainabilityEstimator.estimate.
  destruct (components analysis) as [|c cs] eqn:Hc; [contradiction|].
  set (q := SustainabilityEstimator._build_research_query analysis).
  unfold bind at 1.
  destruct (SustainabilityWebSearchTool.run _ q w) as [[[e|res] w1] t1].
  - exists []. simpl. rewrite app_nil_r. split; reflexivity.
  - match goal with
    | |- context [match ?m w1 with _ => _ end] =>
        pose proof (model_step_trace (SustainabilityEstimator._llm self)
                      (format_messages (SustainabilityEstimator._prompt self)
                         [ ("analysis_json", SustainabilityEstimator.analysis_json analysis);
                           ("research_notes", PStr (raw_output res)) ])
                      (SustainabilityEstimator._parser self)
                      SustainabilityEstimator.estimates_of_parsed w1) as Ht;
        destruct (m w1) as [[r w2] t2] eqn:Hm
    end.
    unfold trace in Ht. simpl in Ht. simpl.
    exists t2. split; [reflexivity|]. rewrite Ht. reflexivity.
Qed.

Lemma estimate_research_queries (self : SustainabilityEstimator.t)
    (analysis : FashionAnalysis) (w : world) :
  components analysis <> [] ->
  research_queries (trace (SustainabilityEstimator.estimate self analysis w))
  = [SustainabilityEstimator._build_research_query analysis].
Proof.
  intros Hne.
  destruct (estimate_trace self analysis w Hne) as [rest [Ht Hrest]].
  rewrite Ht, research_queries_app, Hrest, run_research_queries. reflexivity.
Qed.

End EstimateFacts.

(** C1 (amended). On an analysis with at least one component the
    estimation step hands exactly one query to the search tool: the
    fixed lifecycle-assessment prefix followed by the names of the first
    three components (all of them when there are fewer), in their
    original order, joined with a comma and a space.  Names are taken as
    they come: a name that occurs twice is used twice. *)
Theorem estimate_issues_one_query_from_first_three_names {E : External}
    (self : SustainabilityEstimator.t) (analysis : FashionAnalysis) (w : world) :
  components analysis <> [] ->
  research_queries (trace (SustainabilityEstimator.estimate self analysis w))
  = [ "Lifecycle assessment water CO2 energy consumption for "
      ++ String.concat ", " (firstn 3 (map name (components analysis))) ]
  /\ (length (firstn 3 (map name (components analysis))) <= 3)%nat.
Proof.
  intros Hne. split.
  - rewrite (estimate_research_queries self analysis w Hne). reflexivity.
  - rewrite length_firstn. apply Nat.le_min_l.
Qed.

Lemma estimate_issues_one_query_from_first_three_names_witness :
  components cotton_twice <> []
  /\ research_queries
       (trace (SustainabilityEstimator.estimate (scripted_estimator (inr [])) cotton_twice 0%nat))
     = [ "Lifecycle assessment water CO2 energy consumption for cotton, cotton, polyester" ].
Proof.
  split.
  - discriminate.
  - exact (proj1 (estimate_issues_one_query_from_first_three_names
                    (E := scripted (inr [])) (scripted_estimator (inr [])) cotton_twice 0%nat
                    ltac:(discriminate))).
Defined.

(** C1 as stated fails: with the names cotton, cotton, polyester, wool
    the query issued names cotton twice, while the first three distinct
    names are cotton, polyester and wool. *)
Lemma query_keeps_repeated_names :
  research_queries
    (trace (SustainabilityEstimator.estimate (scripted_estimator (inr [])) cotton_twice 0%nat))
  = [ "Lifecycle assessment water CO2 energy consumption for cotton, cotton, polyester" ]
  /\ research_query_of_distinct_names cotton_twice
     = "Lifecycle assessment water CO2 energy consumption for cotton, polyester, wool"
  /\ research_queries
       (trace (SustainabilityEstimator.estimate (scripted_estimator (inr [])) cotton_twice 0%nat))
     <> [ research_query_of_distinct_names cotton_twice ].
Proof.
  split; [reflexivity|]. split; [reflexivity|]. discriminate.
Qed.

(** C2. On an analysis without components the estimation step raises
    at once (the code's [ValueError] is the specification's invalid
    input error): no estimate is produced, the world is untouched and
    the trace is empty, so neither the search tool nor the model was
    called. *)
Theorem estimate_rejects_empty_components {E : External}
    (self : SustainabilityEstimator.t) (analysis : FashionAnalysis) (w : world) :
  components analysis = [] ->
  SustainabilityEstimator.estimate self analysis w
  = (inl (ValueError "Fashion analysis does not contain any components to estimate."), w, []).
Proof.
  intros Hc. unfold SustainabilityEstimator.estimate. rewrite Hc. reflexivity.
Qed.

Lemma estimate_rejects_empty_components_witness :
  components nothing_recognised = []
  /\ SustainabilityEstimator.estimate (scripted_estimator (inr [])) nothing_recognised 0%nat
     = (inl (ValueError "Fashion analysis does not contain any components to estimate."),
        0%nat, []).
Proof.
  split.
  - reflexivity.
  - exact (estimate_rejects_empty_components (E := scripted (inr []))
             (scripted_estimator (inr [])) nothing_recognised 0%nat eq_refl).
Defined.

(** C6. For the cotton T-shirt analysis (one component, cotton, 100.0
    percent, 200.0 grams, total 200.0 grams) the only query the
    estimation step hands to the search tool is the lifecycle prefix
    followed by the single name. *)
Theorem cotton_tshirt_research_query {E : External}
    (self : SustainabilityEstimator.t) (w : world) :
  research_queries (trace (SustainabilityEstimator.estimate self cotton_tshirt w))
  = [ "Lifecycle assessment water CO2 energy consumption for cotton" ].
Proof.
  rewrite estimate_research_queries; [reflexivity | discriminate].
Qed.

(** ** Parsing *)

Section ParsingFacts.
Context {E : External}.

Lemma dict_get_missing (d : pydict) (key : string) (default : pyval) :
  dict_lookup d key = None -> dict_get d key default = default.
Proof. intros H. unfold dict_get. rewrite H. reflexivity. Qed.

Lemma dict_get_present (d : pydict) (key : string) (default v : pyval) :
  dict_lookup d key = Some v -> dict_get d key default = v.
Proof. intros H. unfold dict_get. rewrite H. reflexivity. Qed.

Lemma rbind_inr {A B : Type} (r : result A) (k : A -> result B) (b : B) :
  rbind r k = inr b -> exists a, r = inr a /\ k a = inr b.
Proof.
  destruct r as [e|a]; simpl; intros H; [discriminate|].
  exists a. split; [reflexivity | exact H].
Qed.

(** Peel one successful step off a chain of conversions. *)
Ltac peel H :=
  let x := fresh "x" in
  let Hx := fresh "H" x in
  apply rbind_inr in H; destruct H as [x [Hx H]].

Lemma component_of_item_fields (item : pydict) (component : MaterialComponent) :
  FashionMaterialAnalyzer.component_of_item (PDict item) = inr component ->
  name component = py_str (dict_get item "name" (PStr ""))
  /\ py_float (dict_get item "percentage" (PFloat float_zero)) = inr (percentage component)
  /\ py_float (dict_get item "weight_grams" (PFloat float_zero)) = inr (weight_grams component).
Proof.
  unfold FashionMaterialAnalyzer.component_of_item. simpl. intros H.
  peel H. peel H. injection H as <-. simpl. auto.
Qed.

Lemma analysis_of_parsed_fields (parsed : pydict) (analysis : FashionAnalysis) :
  FashionMaterialAnalyzer.analysis_of_parsed parsed = inr analysis ->
  garment_summary analysis = py_str (dict_get parsed "garment_summary" (PStr ""))
  /\ (exists items,
        py_iter (dict_get parsed "components" (PList [])) = inr items
        /\ rmapM FashionMaterialAnalyzer.component_of_item items = inr (components analysis))
  /\ match dict_get parsed "total_weight_grams" PNone with
     | PNone => total_weight_grams analysis = None
     | v => exists f, py_float v = inr f /\ total_weight_grams analysis = Some f
     end.
Proof.
  unfold FashionMaterialAnalyzer.analysis_of_parsed. intros H.
  peel H. peel H. peel H. injection H as <-. simpl.
  split; [reflexivity|]. split; [exists x; auto|].
  destruct (dict_get parsed "total_weight_grams" PNone);
    try (unfold rmap in Hx1; peel Hx1; injection Hx1 as <-; eexists; split; [eassumption|reflexivity]).
  injection Hx1 as <-. reflexivity.
Qed.

Lemma estimates_of_parsed_fields (parsed : pydict) (estimates : SustainabilityEstimates) :
  SustainabilityEstimator.estimates_of_parsed parsed = inr estimates ->
  py_float (dict_get parsed "water_liters" (PFloat float_zero)) = inr (water_liters estimates)
  /\ py_float (dict_get parsed "co2_kg" (PFloat float_zero)) = inr (co2_kg estimates)
  /\ py_float (dict_get parsed "energy_kwh" (PFloat float_zero)) = inr (energy_kwh estimates)
  /\ methodology_notes estimates = py_str (dict_get parsed "methodology_notes" (PStr ""))
  /\ research_context estimates = py_str (dict_get parsed "research_context" (PStr "")).
Proof.
  unfold SustainabilityEstimator.estimates_of_parsed. intros H.
  peel H. peel H. peel H. injection H as <-. simpl. auto.
Qed.

(** A numeric field read with default [0.0]. *)
Lemma float_field_missing (d : pydict) (key : string) (f : float) :
  dict_lookup d key = None ->
  py_float (dict_get d key (PFloat float_zero)) = inr f -> f = float_zero.
Proof.
  intros Hk. rewrite (dict_get_missing _ _ _ Hk). simpl. intros H.
  injection H as <-. reflexivity.
Qed.

(** A string field read with default [""]. *)
Lemma str_field_missing (d : pydict) (key : string) :
  dict_lookup d key = None -> py_str (dict_get d key (PStr "")) = "".
Proof. intros Hk. rewrite (dict_get_missing _ _ _ Hk). reflexivity. Qed.

End ParsingFacts.

(** C3. The default policy of the parsing steps.  Whenever a step
    turns a parsed response into its record:
    - extraction: a missing [total_weight_grams] leaves the total unset,
      a missing [garment_summary] gives the empty string, a missing
      [components] gives no components, and the components are the
      entries of the parsed list converted one by one;
    - each component: a missing [name] gives the empty string, a
      missing [percentage] or [weight_grams] gives [0.0];
    - estimation: missing [water_liters], [co2_kg], [energy_kwh] give
      [0.0], missing [methodology_notes], [research_context] give the
      empty string.
    A default never makes a step fail: a response without any of the
    keys is turned into the record of defaults. *)
Theorem parsing_default_policy {E : External} :
  (forall parsed analysis,
      FashionMaterialAnalyzer.analysis_of_parsed parsed = inr analysis ->
      (dict_lookup parsed "total_weight_grams" = None -> total_weight_grams analysis = None)
      /\ (dict_lookup parsed "garment_summary" = None -> garment_summary analysis = "")
      /\ (dict_lookup parsed "components" = None -> components analysis = [])
      /\ (forall items, dict_lookup parsed "components" = Some (PList items) ->
            rmapM FashionMaterialAnalyzer.component_of_item items = inr (components analysis)))
  /\ (forall item component,
        FashionMaterialAnalyzer.component_of_item (PDict item) = inr component ->
        (dict_lookup item "name" = None -> name component = "")
        /\ (dict_lookup item "percentage" = None -> percentage component = float_zero)
        /\ (dict_lookup item "weight_grams" = None -> weight_grams component = float_zero))
  /\ (forall parsed estimates,
        SustainabilityEstimator.estimates_of_parsed parsed = inr estimates ->
        (dict_lookup parsed "water_liters" = None -> water_liters estimates = float_zero)
        /\ (dict_lookup parsed "co2_kg" = None -> co2_kg estimates = float_zero)
        /\ (dict_lookup parsed "energy_kwh" = None -> energy_kwh estimates = float_zero)
        /\ (dict_lookup parsed "methodology_notes" = None -> methodology_notes estimates = "")
        /\ (dict_lookup parsed "research_context" = None -> research_context estimates = ""))
  /\ FashionMaterialAnalyzer.analysis_of_parsed []
     = inr {| garment_summary := ""; components := []; total_weight_grams := None |}
  /\ FashionMaterialAnalyzer.component_of_item (PDict [])
     = inr {| name := ""; percentage := float_zero; weight_grams := float_zero |}
  /\ SustainabilityEstimator.estimates_of_parsed []
     = inr {| water_liters := float_zero; co2_kg := float_zero; energy_kwh := float_zero;
              methodology_notes := ""; research_context := "" |}.
Proof.
  split; [|split; [|split; [|repeat split]]].
  - intros parsed analysis H.
    destruct (analysis_of_parsed_fields parsed analysis H) as [Hs [[items [Hit Hcs]] Htw]].
    repeat split.
    + intros Hk. rewrite (dict_get_missing _ _ _ Hk) in Htw. exact Htw.
    + intros Hk. rewrite Hs. apply str_field_missing. exact Hk.
    + intros Hk. rewrite (dict_get_missing _ _ _ Hk) in Hit. simpl in Hit.
      injection Hit as <-. simpl in Hcs. injection Hcs as <-. reflexivity.
    + intros items' Hk. rewrite (dict_get_present _ _ _ _ Hk) in Hit. simpl in Hit.
      injection Hit as <-. exact Hcs.
  - intros item component H.
    destruct (component_of_item_fields item component H) as [Hn [Hp Hw]].
    repeat split.
    + intros Hk. rewrite Hn. apply str_field_missing. exact Hk.
    + intros Hk. exact (float_field_missing _ _ _ Hk Hp).
    + intros Hk. exact (float_field_missing _ _ _ Hk Hw).
  - intros parsed estimates H.
    destruct (estimates_of_parsed_fields parsed estimates H) as [Hw [Hc [He [Hm Hr]]]].
    repeat split.
    + intros Hk. exact (float_field_missing _ _ _ Hk Hw).
    + intros Hk. exact (float_field_missing _ _ _ Hk Hc).
    + intros Hk. exact (float_field_missing _ _ _ Hk He).
    + intros Hk. rewrite Hm. apply str_field_missing. exact Hk.
    + intros Hk. rewrite Hr. apply str_field_missing. exact Hk.
Qed.

Lemma parsing_default_policy_witness :
  FashionMaterialAnalyzer.analysis_of_parsed (E := scripted (inr [])) partial_response
  = inr partial_analysis
  /\ dict_lookup partial_response "total_weight_grams" = None
  /\ total_weight_grams partial_analysis = None.
Proof.
  split; [reflexivity|]. split; [reflexivity|].
  exact (proj1 (proj1 (parsing_default_policy (E := scripted (inr [])))
                  partial_response partial_analysis eq_refl) eq_refl).
Defined.

(** ** Serialisation *)

Lemma components_round_trip (cs : list MaterialComponent) :
  components_from_list (map asdict_component cs) = Some cs.
Proof.
  induction cs as [|c cs IH]; [reflexivity|].
  cbn [map components_from_list]. rewrite IH.
  destruct c as [n p g]. reflexivity.
Qed.

Lemma analysis_round_trip (r : OrchestratedResponse) :
  analysis_from_dict
    (PDict
       [ ("garment_summary", PStr (garment_summary (fashion_analysis r)));
         ("total_weight_grams",
          pyval_of_optional_float (total_weight_grams (fashion_analysis r)));
         ("components", PList (map asdict_component (components (fashion_analysis r)))) ])
  = Some (fashion_analysis r).
Proof.
  destruct r as [[s cs tw] se]. cbn -[components_from_list map].
  rewrite components_round_trip.
  destruct tw as [f|]; reflexivity.
Qed.

Lemma estimates_round_trip (se : SustainabilityEstimates) :
  estimates_from_dict (asdict_estimates se) = Some se.
Proof. destruct se. reflexivity. Qed.

(** C8. Reading back the nested structure that [to_dict] writes gives
    the combined result it was written from: every float and every
    string, the optional total weight and the list of components come
    back as they were. *)
Theorem to_dict_round_trip (r : OrchestratedResponse) :
  from_dict (to_dict r) = Some r.
Proof.
  unfold to_dict, from_dict.
  cbn [dict_lookup String.eqb Ascii.eqb Bool.eqb].
  rewrite analysis_round_trip, estimates_round_trip.
  destruct r. reflexivity.
Qed.

(** ** Construction *)

(** C9. Without an injected model client, constructing either agent
    with the model credential absent ([None] or empty) raises at once
    (the code's [RuntimeError] naming [OPENAI_API_KEY] is the
    specification's missing credential error) with an empty trace and an
    untouched world.  An absent search credential is not an error: the
    search wrapper built from it holds the disabled tool, and so does an
    estimator constructed without an injected search tool. *)
Theorem construction_credentials {E : External} (settings : Settings) (w : world) :
  (truthy (openai_api_key settings) = false ->
     FashionMaterialAnalyzer.__init__ settings None w
     = (inl (RuntimeError "OPENAI_API_KEY is required to instantiate FashionMaterialAnalyzer."),
        w, [])
     /\ forall search_tool,
          SustainabilityEstimator.__init__ settings None search_tool w
          = (inl (RuntimeError
                    "OPENAI_API_KEY is required to instantiate SustainabilityEstimator."),
             w, []))
  /\ (truthy (tavily_api_key settings) = false ->
      (forall k,
          SustainabilityWebSearchTool._tool
            (SustainabilityWebSearchTool.__init__ (tavily_api_key settings) k)
          = disabled_tool)
      /\ (forall client,
            exists estimator,
              SustainabilityEstimator.__init__ settings (Some client) None w
              = (inr estimator, w, [])
              /\ SustainabilityWebSearchTool._tool
                   (SustainabilityEstimator._search_tool estimator) = disabled_tool)
      /\ (truthy (openai_api_key settings) = true ->
          exists estimator,
            SustainabilityEstimator.__init__ settings None None w = (inr estimator, w, [])
            /\ SustainabilityWebSearchTool._tool
                 (SustainabilityEstimator._search_tool estimator) = disabled_tool)).
Proof.
  split.
  - intros Hkey. split.
    + unfold FashionMaterialAnalyzer.__init__. rewrite Hkey. reflexivity.
    + intros search_tool. unfold SustainabilityEstimator.__init__. rewrite Hkey. reflexivity.
  - intros Hkey. split; [|split].
    + intros k. simpl. apply build_tool_without_key. exact Hkey.
    + intros client. eexists. split; [reflexivity|].
      simpl. apply build_tool_without_key. exact Hkey.
    + intros Hopenai. unfold SustainabilityEstimator.__init__. rewrite Hopenai.
      eexists. split; [reflexivity|].
      simpl. apply build_tool_without_key. exact Hkey.
Qed.

Lemma construction_credentials_witness :
  truthy (openai_api_key no_credentials) = false
  /\ truthy (tavily_api_key no_credentials) = false
  /\ FashionMaterialAnalyzer.__init__ (E := scripted (inr [])) no_credentials None 0%nat
     = (inl (RuntimeError "OPENAI_API_KEY is required to instantiate FashionMaterialAnalyzer."),
        0%nat, [])
  /\ SustainabilityWebSearchTool._tool
       (SustainabilityWebSearchTool.__init__ (tavily_api_key no_credentials) 5)
     = disabled_tool.
Proof.
  split; [reflexivity|]. split; [reflexivity|]. split.
  - exact (proj1 (proj1 (construction_credentials (E := scripted (inr []))
                           no_credentials 0%nat) eq_refl)).
  - exact (proj1 (proj2 (construction_credentials (E := scripted (inr []))
                           no_credentials 0%nat) eq_refl) 5%Z).
Defined.

(** ** Orchestration *)

Section RunFacts.
Context {E : External}.

(** A model step is one call; its outcome is decided by the reply. *)
Lemma model_step_run (client : ChatModel) (request : messages)
    (parser : list ResponseSchema) {A : Type} (convert : pydict -> result A) (w : world) :
  (content <- call_llm client request ;;
   parsed <- parse_or_raise parser content ;;
   lift (convert parsed)) w
  = (outcome_of_reply parser convert (fst (llm_invoke client request w)),
     snd (llm_invoke client request w),
     [LlmInvoke client request (fst (llm_invoke client request w))]).
Proof.
  unfold bind, call_llm, parse_or_raise, lift, raise, ret, outcome_of_reply.
  destruct (llm_invoke client request w) as [[e|content] w1]; simpl; [reflexivity|].
  destruct (parser_parse parser content) as [exc|parsed]; simpl; [reflexivity|].
  destruct (convert parsed); reflexivity.
Qed.

Lemma analyze_run (self : FashionMaterialAnalyzer.t) (image_reference user_context : string)
    (w : world) :
  let request :=
    format_messages (FashionMaterialAnalyzer._prompt self)
      [ ("image_reference", PStr image_reference);
        ("user_context", PStr (str_or user_context "No additional context provided.")) ] in
  let r := llm_invoke (FashionMaterialAnalyzer._llm self) request w in
  FashionMaterialAnalyzer.analyze self image_reference user_context w
  = (outcome_of_reply (FashionMaterialAnalyzer._parser self)
       FashionMaterialAnalyzer.analysis_of_parsed (fst r),
     snd r,
     [LlmInvoke (FashionMaterialAnalyzer._llm self) request (fst r)]).
Proof.
  intros request r. unfold FashionMaterialAnalyzer.analyze.
  apply model_step_run.
Qed.

(** Two runs of the extraction step whose model replies agree end alike. *)
Lemma analyze_deterministic (self : FashionMaterialAnalyzer.t)
    (image_reference user_context : string) (w w' : world) :
  replies (trace (FashionMaterialAnalyzer.analyze self image_reference user_context w))
  = replies (trace (FashionMaterialAnalyzer.analyze self image_reference user_context w')) ->
  outcome (FashionMaterialAnalyzer.analyze self image_reference user_context w)
  = outcome (FashionMaterialAnalyzer.analyze self image_reference user_context w').
Proof.
  rewrite !analyze_run. unfold trace, outcome. simpl.
  intros H. injection H as H. rewrite H. reflexivity.
Qed.

Lemma analyze_replies_length (self : FashionMaterialAnalyzer.t)
    (image_reference user_context : string) (w : world) :
  length (replies (trace (FashionMaterialAnalyzer.analyze self image_reference user_context w)))
  = 1%nat.
Proof. rewrite analyze_run. reflexivity. Qed.

(** The estimation step on a non-empty analysis: the lookup, then one
    model step fed with the text the lookup returned. *)
Lemma estimate_run (self : SustainabilityEstimator.t) (analysis : FashionAnalysis) (w : world) :
  components analysis <> [] ->
  let q := SustainabilityEstimator._build_research_query analysis in
  SustainabilityEstimator.estimate self analysis w
  = match SustainabilityWebSearchTool.tool_run
            (SustainabilityWebSearchTool._tool (SustainabilityEstimator._search_tool self)) q w with
    | (inl e, w1, t) => (inl e, w1, SearchRun q :: t)
    | (inr output, w1, t) =>
        let request :=
          format_messages (SustainabilityEstimator._prompt self)
            [ ("analysis_json", SustainabilityEstimator.analysis_json analysis);
              ("research_notes", PStr (py_str output)) ] in
        let r := llm_invoke (SustainabilityEstimator._llm self) request w1 in
        (outcome_of_reply (SustainabilityEstimator._parser self)
           SustainabilityEstimator.estimates_of_parsed (fst r),
         snd r,
         (SearchRun q :: t ++ [LlmInvoke (SustainabilityEstimator._llm self) request (fst r)])%list)
    end.
Proof.
  intros Hne q. unfold SustainabilityEstimator.estimate.
  destruct (components analysis) as [|c cs]; [contradiction|].
  fold q. unfold bind at 1. rewrite run_unfold.
  destruct (SustainabilityWebSearchTool.tool_run _ q w) as [[[e|output] w1] t];
    [reflexivity|].
  rewrite model_step_run. cbn [raw_output]. rewrite app_nil_r. reflexivity.
Qed.

(** Two runs of the estimation step whose search and model replies
    agree end alike. *)
Lemma estimate_deterministic (self : SustainabilityEstimator.t)
    (analysis : FashionAnalysis) (w w' : world) :
  replies (trace (SustainabilityEstimator.estimate self analysis w))
  = replies (trace (SustainabilityEstimator.estimate self analysis w')) ->
  outcome (SustainabilityEstimator.estimate self analysis w)
  = outcome (SustainabilityEstimator.estimate self analysis w').
Proof.
  destruct (components analysis) as [|c cs] eqn:Hc.
  - unfold SustainabilityEstimator.estimate. rewrite Hc. reflexivity.
  - assert (Hne : components analysis <> []) by (rewrite Hc; discriminate).
    rewrite !(estimate_run self analysis _ Hne).
    set (q := SustainabilityEstimator._build_research_query analysis).
    destruct self as [client parser prompt [k key tool]]; cbn [SustainabilityEstimator._llm
      SustainabilityEstimator._parser SustainabilityEstimator._prompt
      SustainabilityEstimator._search_tool SustainabilityWebSearchTool._tool].
    destruct tool as [k' key'|nm descr func]; unfold SustainabilityWebSearchTool.tool_run.
    + unfold call_tavily.
      destruct (tavily_run k' key' q w) as [[e|output] w1];
        destruct (tavily_run k' key' q w') as [[e'|output'] w1'];
        unfold trace, outcome; simpl; intros H; try discriminate.
      * injection H as <-. reflexivity.
      * injection H as <- H. rewrite H. reflexivity.
    + unfold ret, trace, outcome. simpl. intros H. injection H as H.
      rewrite H. reflexivity.
Qed.

End RunFacts.

Section OrchestratorFacts.
Context {E : External}.

(** The three ways a run can end, for any pair of agents. *)
Lemma run_steps {A B : Type} {FA : FashionAgent A} {SA : SustainabilityAgent B}
    (self : CollaborativeAgentOrchestrator.t A B) (image_reference user_prompt : string)
    (w : world) :
  CollaborativeAgentOrchestrator.run self image_reference user_prompt w
  = match analyze (CollaborativeAgentOrchestrator._fashion_agent self)
            image_reference user_prompt w with
    | (inl e, w1, t1) => (inl e, w1, t1)
    | (inr analysis, w1, t1) =>
        match estimate (CollaborativeAgentOrchestrator._sustainability_agent self)
                analysis w1 with
        | (inl e, w2, t2) => (inl e, w2, (t1 ++ t2)%list)
        | (inr estimates, w2, t2) =>
            (inr {| fashion_analysis := analysis; sustainability_estimates := estimates |},
             w2, (t1 ++ t2)%list)
        end
    end.
Proof.
  unfold CollaborativeAgentOrchestrator.run, bind, ret.
  destruct (analyze _ image_reference user_prompt w) as [[[e|analysis] w1] t1]; [reflexivity|].
  destruct (estimate _ analysis w1) as [[[e|estimates] w2] t2]; [reflexivity|].
  rewrite app_nil_r. reflexivity.
Qed.

Lemma singleton_app_inj {X : Type} (l1 l2 r1 r2 : list X) :
  length l1 = 1%nat -> length l2 = 1%nat ->
  (l1 ++ r1 = l2 ++ r2)%list -> l1 = l2 /\ r1 = r2.
Proof.
  destruct l1 as [|x [|? ?]]; try discriminate.
  destruct l2 as [|y [|? ?]]; try discriminate.
  simpl. intros _ _ H. injection H as <- <-. split; reflexivity.
Qed.

End OrchestratorFacts.

(** C5. A run ends in one of three ways, for any pair of agents.  If
    extraction raises, the run raises that very exception and its trace
    and final world are those of extraction alone: the estimation agent
    has no part in the run.  If extraction succeeds and estimation
    raises, the run raises that very exception.  Only when both succeed
    is a combined result produced, holding the two records.  In
    particular, when the parser rejects the model's reply, the run
    raises the [RuntimeError] that wraps the parser's diagnostic (the
    specification's response format error) after a single model call,
    whatever the estimation agent is. *)
Theorem run_propagates_failures {E : External} :
  (forall (A B : Type) (FA : FashionAgent A) (SA : SustainabilityAgent B)
          (self : CollaborativeAgentOrchestrator.t A B)
          (image_reference user_prompt : string) (w : world),
      match analyze (CollaborativeAgentOrchestrator._fashion_agent self)
              image_reference user_prompt w with
      | (inl e, w1, t1) =>
          CollaborativeAgentOrchestrator.run self image_reference user_prompt w
          = (inl e, w1, t1)
      | (inr analysis, w1, t1) =>
          match estimate (CollaborativeAgentOrchestrator._sustainability_agent self)
                  analysis w1 with
          | (inl e, w2, t2) =>
              CollaborativeAgentOrchestrator.run self image_reference user_prompt w
              = (inl e, w2, (t1 ++ t2)%list)
          | (inr estimates, w2, t2) =>
              CollaborativeAgentOrchestrator.run self image_reference user_prompt w
              = (inr {| fashion_analysis := analysis; sustainability_estimates := estimates |},
                 w2, (t1 ++ t2)%list)
          end
      end)
  /\ (forall (B : Type) (SA : SustainabilityAgent B)
             (fashion_agent : FashionMaterialAnalyzer.t) (sustainability_agent : B)
             (image_reference user_prompt content detail : string) (w w1 : world),
        let request :=
          format_messages (FashionMaterialAnalyzer._prompt fashion_agent)
            [ ("image_reference", PStr image_reference);
              ("user_context", PStr (str_or user_prompt "No additional context provided.")) ] in
        llm_invoke (FashionMaterialAnalyzer._llm fashion_agent) request w = (inr content, w1) ->
        parser_parse (FashionMaterialAnalyzer._parser fashion_agent) content = inl detail ->
        CollaborativeAgentOrchestrator.run
          (CollaborativeAgentOrchestrator.mk fashion_agent sustainability_agent)
          image_reference user_prompt w
        = (inl (RuntimeError ("Failed to parse LLM response: " ++ detail)), w1,
           [LlmInvoke (FashionMaterialAnalyzer._llm fashion_agent) request (inr content)])).
Proof.
  split.
  - intros A B FA SA self image_reference user_prompt w.
    rewrite run_steps.
    destruct (analyze _ image_reference user_prompt w) as [[[e|analysis] w1] t1]; [reflexivity|].
    destruct (estimate _ analysis w1) as [[[e|estimates] w2] t2]; reflexivity.
  - intros B SA fashion_agent sustainability_agent image_reference user_prompt content detail
      w w1 request Hreply Hparse.
    rewrite run_steps. cbn [CollaborativeAgentOrchestrator._fashion_agent].
    unfold analyze, FashionMaterialAnalyzer_agent.
    rewrite analyze_run. fold request. rewrite Hreply.
    unfold outcome_of_reply. simpl. rewrite Hparse. reflexivity.
Qed.

Lemma run_propagates_failures_witness :
  let E := scripted (inl "Got invalid JSON object") in
  CollaborativeAgentOrchestrator.run
    (CollaborativeAgentOrchestrator.mk
       (scripted_analyzer (inl "Got invalid JSON object"))
       (scripted_estimator (inl "Got invalid JSON object")))
    "https://example.org/shirt.png" "" 0%nat
  = (inl (RuntimeError "Failed to parse LLM response: Got invalid JSON object"), 1%nat,
     [ @LlmInvoke E "agent-a"
         (@format_messages E
            (FashionMaterialAnalyzer._prompt (scripted_analyzer (inl "Got invalid JSON object")))
            [ ("image_reference", PStr "https://example.org/shirt.png");
              ("user_context", PStr "No additional context provided.") ])
         (inr "{}") ]).
Proof.
  exact (proj2 (run_propagates_failures (E := scripted (inl "Got invalid JSON object")))
           _ _ (scripted_analyzer (inl "Got invalid JSON object"))
           (scripted_estimator (inl "Got invalid JSON object"))
           "https://example.org/shirt.png" "" "{}" "Got invalid JSON object" 0%nat 1%nat
           eq_refl eq_refl).
Defined.

(** C7. Two runs of the same orchestrator on the same image reference
    and prompt, whatever state the providers are in, end alike as soon
    as the providers answer alike: when the model and search replies of
    the two runs agree, both runs raise the same exception or produce
    the same combined result, whose [to_dict] serialisations are then
    the same value. *)
Theorem run_deterministic {E : External}
    (self : CollaborativeAgentOrchestrator.t FashionMaterialAnalyzer.t SustainabilityEstimator.t)
    (image_reference user_prompt : string) (w w' : world) :
  replies (trace (CollaborativeAgentOrchestrator.run self image_reference user_prompt w))
  = replies (trace (CollaborativeAgentOrchestrator.run self image_reference user_prompt w')) ->
  outcome (CollaborativeAgentOrchestrator.run self image_reference user_prompt w)
  = outcome (CollaborativeAgentOrchestrator.run self image_reference user_prompt w')
  /\ rmap to_dict (outcome (CollaborativeAgentOrchestrator.run self image_reference user_prompt w))
     = rmap to_dict
         (outcome (CollaborativeAgentOrchestrator.run self image_reference user_prompt w')).
Proof.
  intros H.
  assert (Hout : outcome (CollaborativeAgentOrchestrator.run self image_reference user_prompt w)
                 = outcome (CollaborativeAgentOrchestrator.run self image_reference user_prompt w')).
  { revert H. rewrite !run_steps.
    unfold analyze, FashionMaterialAnalyzer_agent, estimate, SustainabilityEstimator_agent.
    destruct self as [fa sa]. cbn [CollaborativeAgentOrchestrator._fashion_agent
                                     CollaborativeAgentOrchestrator._sustainability_agent].
    pose proof (analyze_deterministic fa image_reference user_prompt w w') as Hfa.
    pose proof (analyze_replies_length fa image_reference user_prompt w) as Hlen.
    pose proof (analyze_replies_length fa image_reference user_prompt w') as Hlen'.
    destruct (FashionMaterialAnalyzer.analyze fa image_reference user_prompt w)
      as [[ra w1] t1].
    destruct (FashionMaterialAnalyzer.analyze fa image_reference user_prompt w')
      as [[ra' w1'] t1'].
    unfold trace, outcome in Hfa, Hlen, Hlen'. simpl in Hfa, Hlen, Hlen'.
    intros H.
    assert (Hsplit : replies t1 = replies t1'
                     /\ (ra = ra' ->
                         forall analysis, ra = inr analysis ->
                           replies (trace (SustainabilityEstimator.estimate sa analysis w1))
                           = replies (trace (SustainabilityEstimator.estimate sa analysis w1')))).
    { destruct ra as [e|analysis]; destruct ra' as [e'|analysis'].
      - unfold trace in H; simpl in H. split; [exact H|]. intros _ ? ?; discriminate.
      - destruct (SustainabilityEstimator.estimate sa analysis' w1') as [[[?|?] ?] t2'];
          unfold trace in H; simpl in H; rewrite replies_app in H;
          rewrite <- (app_nil_r (replies t1)) in H;
          destruct (singleton_app_inj _ _ _ _ Hlen Hlen' H) as [H1 _];
          (split; [exact H1|]); intros Heq; specialize (Hfa H1); discriminate.
      - destruct (SustainabilityEstimator.estimate sa analysis w1) as [[[?|?] ?] t2];
          unfold trace in H; simpl in H; rewrite replies_app in H;
          rewrite <- (app_nil_r (replies t1')) in H;
          destruct (singleton_app_inj _ _ _ _ Hlen Hlen' H) as [H1 _];
          (split; [exact H1|]); intros Heq; specialize (Hfa H1); discriminate.
      - assert (H' : (replies t1
                      ++ replies (trace (SustainabilityEstimator.estimate sa analysis w1))
                      = replies t1'
                        ++ replies (trace (SustainabilityEstimator.estimate sa analysis' w1')))%list).
        { destruct (SustainabilityEstimator.estimate sa analysis w1) as [[[?|?] ?] t2];
            destruct (SustainabilityEstimator.estimate sa analysis' w1') as [[[?|?] ?] t2'];
            unfold trace in H |- *; simpl in H |- *; rewrite !replies_app in H; exact H. }
        destruct (singleton_app_inj _ _ _ _ Hlen Hlen' H') as [H1 H2].
        split; [exact H1|]. intros Heq a Ha.
        injection Heq as <-. injection Ha as <-. exact H2. }
    destruct Hsplit as [H1 H2]. specialize (Hfa H1). subst ra'.
    destruct ra as [e|analysis]; [reflexivity|].
    specialize (H2 eq_refl analysis eq_refl).
    pose proof (estimate_deterministic sa analysis w1 w1' H2) as Hse.
    destruct (SustainabilityEstimator.estimate sa analysis w1) as [[[?|?] ?] ?];
      destruct (SustainabilityEstimator.estimate sa analysis w1') as [[[?|?] ?] ?];
      unfold outcome in Hse |- *; simpl in Hse |- *; try discriminate;
      injection Hse as <-; reflexivity. }
  split; [exact Hout|]. rewrite Hout. reflexivity.
Qed.

Lemma run_deterministic_witness :
  let E := scripted (inr cotton_response) in
  let self :=
    CollaborativeAgentOrchestrator.mk
      (scripted_analyzer (inr cotton_response)) (scripted_estimator (inr cotton_response)) in
  rmap to_dict (outcome (CollaborativeAgentOrchestrator.run self "shirt.png" "" 0%nat))
  = rmap to_dict (outcome (CollaborativeAgentOrchestrator.run self "shirt.png" "" 7%nat)).
Proof.
  exact (proj2 (run_deterministic (E := scripted (inr cotton_response))
                  (CollaborativeAgentOrchestrator.mk
                     (scripted_analyzer (inr cotton_response))
                     (scripted_estimator (inr cotton_response)))
                  "shirt.png" "" 0%nat 7%nat eq_refl)).
Defined.

(** * Further properties of the package *)

(** ** The search tool with a credential *)



(** ** The research query *)

(** X2. The research query names every component when there are at
    most three, and is blind to everything else: components after the
    third, the summary and the total weight do not change it. *)
Theorem research_query_reads_three_names :
  (forall analysis,
      (length (components analysis) <= 3)%nat ->
      SustainabilityEstimator._build_research_query analysis
      = "Lifecycle assessment water CO2 energy consumption for "
        ++ String.concat ", " (map name (components analysis)))
  /\ (forall summary summary' total total' first later,
        (3 <= length first)%nat ->
        SustainabilityEstimator._build_research_query
          {| garment_summary := summary; components := (first ++ later)%list;
             total_weight_grams := total |}
        = SustainabilityEstimator._build_research_query
            {| garment_summary := summary'; components := first;
               total_weight_grams := total' |}).
Proof.
  split.
  - intros analysis Hlen. unfold SustainabilityEstimator._build_research_query.
    rewrite firstn_all2; [reflexivity|]. rewrite length_map. exact Hlen.
  - intros summary summary' total total' first later Hlen.
    unfold SustainabilityEstimator._build_research_query. cbn [components].
    rewrite map_app, firstn_app, length_map.
    replace (3 - length first)%nat with 0%nat by lia.
    cbn [firstn]. rewrite app_nil_r. reflexivity.
Qed.

Lemma research_query_reads_three_names_witness :
  (length (components cotton_tshirt) <= 3)%nat
  /\ SustainabilityEstimator._build_research_query cotton_tshirt
     = "Lifecycle assessment water CO2 energy consumption for cotton".
Proof.
  split; [simpl; lia|].
  exact (proj1 research_query_reads_three_names cotton_tshirt ltac:(simpl; lia)).
Defined.

(** ** The estimation step, call by call *)

Section EstimateCalls.
Context {E : External}.

(** The wrapped tool never calls a model, and sends at most one
    request to the provider. *)
Lemma tool_run_trace (tool : Tool) (q : string) (w : world) :
  trace (SustainabilityWebSearchTool.tool_run tool q w) = []
  \/ exists k r, trace (SustainabilityWebSearchTool.tool_run tool q w) = [TavilyRequest k q r].
Proof.
  destruct tool as [k key|nm descr func]; simpl.
  - right. unfold call_tavily. destruct (tavily_run k key q w) as [r w1].
    exists k, r. reflexivity.
  - left. reflexivity.
Qed.

Lemma model_calls_app (t1 t2 : list event) :
  model_calls (t1 ++ t2) = (model_calls t1 ++ model_calls t2)%list.
Proof.
  induction t1 as [|ev t1 IH]; simpl; [reflexivity|].
  destruct ev; simpl; rewrite ?IH; reflexivity.
Qed.

(** The shapes the trace of [estimate] can take. *)
Lemma estimate_trace_cases (self : SustainabilityEstimator.t) (analysis : FashionAnalysis)
    (w : world) :
  let q := SustainabilityEstimator._build_research_query analysis in
  let t := trace (SustainabilityEstimator.estimate self analysis w) in
  t = []
  \/ t = [SearchRun q]
  \/ (exists k r, t = [SearchRun q; TavilyRequest k q r])
  \/ (exists c m r, t = [SearchRun q; LlmInvoke c m r])
  \/ (exists k r c m r', t = [SearchRun q; TavilyRequest k q r; LlmInvoke c m r']).
Proof.
  intros q t. subst t.
  destruct (components analysis) as [|c0 cs] eqn:Hc.
  - left. unfold SustainabilityEstimator.estimate. rewrite Hc. reflexivity.
  - assert (Hne : components analysis <> []) by (rewrite Hc; discriminate).
    rewrite (estimate_run self analysis w Hne). fold q.
    pose proof (tool_run_trace
                  (SustainabilityWebSearchTool._tool (SustainabilityEstimator._search_tool self))
                  q w) as Ht.
    destruct (SustainabilityWebSearchTool.tool_run _ q w) as [[[e|output] w1] t0];
      unfold trace in Ht |- *; simpl in Ht |- *;
      destruct Ht as [-> | [k [r ->]]]; simpl.
    + right; left. reflexivity.
    + right; right; left. exists k, r. reflexivity.
    + right; right; right; left. eexists _, _, _. reflexivity.
    + right; right; right; right. eexists _, _, _, _, _. reflexivity.
Qed.

End EstimateCalls.

(** X3. When the research lookup raises, the estimation step raises
    the same exception, unchanged, and never reaches the model: its
    trace is the query followed by what the lookup did. *)
Theorem estimate_stops_when_search_fails {E : External}
    (self : SustainabilityEstimator.t) (analysis : FashionAnalysis)
    (w w1 : world) (e : exn) (t : list event) :
  components analysis <> [] ->
  SustainabilityWebSearchTool.tool_run
    (SustainabilityWebSearchTool._tool (SustainabilityEstimator._search_tool self))
    (SustainabilityEstimator._build_research_query analysis) w = (inl e, w1, t) ->
  SustainabilityEstimator.estimate self analysis w
  = (inl e, w1, SearchRun (SustainabilityEstimator._build_research_query analysis) :: t)
  /\ model_calls (trace (SustainabilityEstimator.estimate self analysis w)) = [].
Proof.
  intros Hne Hrun.
  pose proof (tool_run_trace
                (SustainabilityWebSearchTool._tool (SustainabilityEstimator._search_tool self))
                (SustainabilityEstimator._build_research_query analysis) w) as Ht.
  rewrite (estimate_run self analysis w Hne). rewrite Hrun in Ht |- *.
  split; [reflexivity|].
  unfold trace in Ht |- *. simpl in Ht |- *.
  destruct Ht as [-> | [k [r ->]]]; reflexivity.
Qed.

Lemma estimate_stops_when_search_fails_witness :
  components cotton_tshirt <> []
  /\ SustainabilityEstimator.estimate (searching_estimator unreachable (inr []))
       cotton_tshirt 0%nat
     = (inl (ProviderError "ConnectionError" "search provider unreachable"), 1%nat,
        [ SearchRun "Lifecycle assessment water CO2 energy consumption for cotton";
          TavilyRequest 5 "Lifecycle assessment water CO2 energy consumption for cotton"
            unreachable ]).
Proof.
  split; [discriminate|].
  exact (proj1 (estimate_stops_when_search_fails (E := scripted_search unreachable (inr []))
                  (searching_estimator unreachable (inr [])) cotton_tshirt 0%nat 1%nat
                  (ProviderError "ConnectionError" "search provider unreachable")
                  [ TavilyRequest 5
                      "Lifecycle assessment water CO2 energy consumption for cotton"
                      unreachable ]
                  ltac:(discriminate) eq_refl)).
Defined.

(** X4. With the disabled search tool the estimation step makes one
    outbound call only, the model call, and the research notes it hands
    to the model are the advisory text of the disabled tool. *)
Theorem estimate_with_disabled_search {E : External}
    (self : SustainabilityEstimator.t) (analysis : FashionAnalysis) (w : world) :
  components analysis <> [] ->
  SustainabilityWebSearchTool._tool (SustainabilityEstimator._search_tool self)
  = disabled_tool ->
  let request :=
    format_messages (SustainabilityEstimator._prompt self)
      [ ("analysis_json", SustainabilityEstimator.analysis_json analysis);
        ("research_notes", PStr disabled_search_advisory) ] in
  let r := llm_invoke (SustainabilityEstimator._llm self) request w in
  trace (SustainabilityEstimator.estimate self analysis w)
  = [ SearchRun (SustainabilityEstimator._build_research_query analysis);
      LlmInvoke (SustainabilityEstimator._llm self) request (fst r) ]
  /\ final_world (SustainabilityEstimator.estimate self analysis w) = snd r
  /\ outcome (SustainabilityEstimator.estimate self analysis w)
     = match fst r with
       | inl e => inl e
       | inr content =>
           match parser_parse (SustainabilityEstimator._parser self) content with
           | inl detail => inl (RuntimeError ("Failed to parse LLM response: " ++ detail))
           | inr parsed => SustainabilityEstimator.estimates_of_parsed parsed
           end
       end.
Proof.
  intros Hne Htool request r.
  rewrite (estimate_run self analysis w Hne), Htool.
  unfold disabled_tool, SustainabilityWebSearchTool.tool_run, ret.
  cbn [py_str]. rewrite disabled_search_text. fold request. fold r.
  repeat split.
Qed.

Lemma estimate_with_disabled_search_witness :
  components cotton_tshirt <> []
  /\ outbound_calls
       (trace (SustainabilityEstimator.estimate (scripted_estimator (inr [])) cotton_tshirt 0%nat))
     = [ @LlmInvoke (scripted (inr [])) "agent-b"
           (SustainabilityEstimator._prompt (scripted_estimator (inr [])),
            [ ("analysis_json", SustainabilityEstimator.analysis_json cotton_tshirt);
              ("research_notes", PStr disabled_search_advisory) ])
           (inr "{}") ].
Proof.
  split; [discriminate|].
  rewrite (proj1 (estimate_with_disabled_search (E := scripted (inr []))
                    (scripted_estimator (inr [])) cotton_tshirt 0%nat
                    ltac:(discriminate) eq_refl)).
  reflexivity.
Defined.

(** ** The extraction step, call by call *)

(** X5. The extraction step calls the model exactly once, whatever the
    outcome.  An exception of the model is raised unchanged; a reply the
    parser rejects is raised as a [RuntimeError] whose text is the fixed
    prefix followed by the parser's diagnostic; any other reply is
    converted field by field. *)
Theorem analyze_calls_model_once {E : External}
    (self : FashionMaterialAnalyzer.t) (image_reference user_context : string) (w : world) :
  let request :=
    format_messages (FashionMaterialAnalyzer._prompt self)
      [ ("image_reference", PStr image_reference);
        ("user_context", PStr (str_or user_context "No additional context provided.")) ] in
  let r := llm_invoke (FashionMaterialAnalyzer._llm self) request w in
  trace (FashionMaterialAnalyzer.analyze self image_reference user_context w)
  = [LlmInvoke (FashionMaterialAnalyzer._llm self) request (fst r)]
  /\ final_world (FashionMaterialAnalyzer.analyze self image_reference user_context w) = snd r
  /\ outcome (FashionMaterialAnalyzer.analyze self image_reference user_context w)
     = match fst r with
       | inl e => inl e
       | inr content =>
           match parser_parse (FashionMaterialAnalyzer._parser self) content with
           | inl detail => inl (RuntimeError ("Failed to parse LLM response: " ++ detail))
           | inr parsed => FashionMaterialAnalyzer.analysis_of_parsed parsed
           end
       end.
Proof.
  intros request r. rewrite analyze_run. fold request. fold r.
  split; [reflexivity|]. split; [reflexivity|].
  unfold outcome, outcome_of_reply. simpl.
  destruct (fst r) as [e|content]; reflexivity.
Qed.


(** ** A whole run *)

Section RunCalls.
Context {E : External}.

Lemma outbound_calls_app (t1 t2 : list event) :
  outbound_calls (t1 ++ t2) = (outbound_calls t1 ++ outbound_calls t2)%list.
Proof. unfold outbound_calls. apply filter_app. Qed.

(** The trace of a whole run: the extraction call, then whatever the
    estimation step did, if it was reached. *)
Lemma run_trace
    (self : CollaborativeAgentOrchestrator.t FashionMaterialAnalyzer.t SustainabilityEstimator.t)
    (image_reference user_prompt : string) (w : world) :
  let fa := CollaborativeAgentOrchestrator._fashion_agent self in
  let sa := CollaborativeAgentOrchestrator._sustainability_agent self in
  let request :=
    format_messages (FashionMaterialAnalyzer._prompt fa)
      [ ("image_reference", PStr image_reference);
        ("user_context", PStr (str_or user_prompt "No additional context provided.")) ] in
  let r := llm_invoke (FashionMaterialAnalyzer._llm fa) request w in
  trace (CollaborativeAgentOrchestrator.run self image_reference user_prompt w)
  = LlmInvoke (FashionMaterialAnalyzer._llm fa) request (fst r)
    :: match outcome_of_reply (FashionMaterialAnalyzer._parser fa)
               FashionMaterialAnalyzer.analysis_of_parsed (fst r) with
       | inl _ => []
       | inr analysis => trace (SustainabilityEstimator.estimate sa analysis (snd r))
       end.
Proof.
  intros fa sa request r. rewrite run_steps.
  unfold analyze, FashionMaterialAnalyzer_agent, estimate, SustainabilityEstimator_agent.
  fold fa sa. rewrite analyze_run. fold request. fold r.
  destruct (outcome_of_reply _ _ (fst r)) as [e|analysis]; [reflexivity|].
  destruct (SustainabilityEstimator.estimate sa analysis (snd r)) as [[[e|est] w2] t2];
    reflexivity.
Qed.

End RunCalls.

(** X7. A run starts with the extraction model call and makes at most
    two further outbound calls: at most one request to the search
    provider and at most one more model call.  At most one query is
    handed to the search tool. *)
Theorem run_makes_at_most_three_outbound_calls {E : External}
    (self : CollaborativeAgentOrchestrator.t FashionMaterialAnalyzer.t SustainabilityEstimator.t)
    (image_reference user_prompt : string) (w : world) :
  let t := trace (CollaborativeAgentOrchestrator.run self image_reference user_prompt w) in
  (exists reply rest,
      t = LlmInvoke
            (FashionMaterialAnalyzer._llm (CollaborativeAgentOrchestrator._fashion_agent self))
            (format_messages
               (FashionMaterialAnalyzer._prompt
                  (CollaborativeAgentOrchestrator._fashion_agent self))
               [ ("image_reference", PStr image_reference);
                 ("user_context",
                  PStr (str_or user_prompt "No additional context provided.")) ])
            reply :: rest)
  /\ (length (outbound_calls t) <= 3)%nat
  /\ (length (model_calls t) <= 2)%nat
  /\ (length (provider_requests t) <= 1)%nat
  /\ (length (research_queries t) <= 1)%nat.
Proof.
  intros t. subst t. rewrite run_trace.
  split; [eexists _, _; reflexivity|].
  destruct (outcome_of_reply _ _ _) as [e|analysis].
  - simpl. lia.
  - destruct (estimate_trace_cases
                (CollaborativeAgentOrchestrator._sustainability_agent self) analysis
                (snd (llm_invoke
                        (FashionMaterialAnalyzer._llm
                           (CollaborativeAgentOrchestrator._fashion_agent self))
                        (format_messages
                           (FashionMaterialAnalyzer._prompt
                              (CollaborativeAgentOrchestrator._fashion_agent self))
                           [ ("image_reference", PStr image_reference);
                             ("user_context",
                              PStr (str_or user_prompt "No additional context provided.")) ])
                        w)))
      as [H | [H | [[k [r H]] | [[c [m [r H]]] | [k [r [c [m [r' H]]]]]]]]];
      rewrite H; simpl; lia.
Qed.

(** X8. A combined result never has an empty list of components, and
    the estimates in it were computed for the analysis in it: whenever a
    run succeeds, the extraction step returned that analysis and the
    estimation step returned those estimates for it. *)
Theorem combined_result_has_components {E : External} {A : Type} {FA : FashionAgent A}
    (self : CollaborativeAgentOrchestrator.t A SustainabilityEstimator.t)
    (image_reference user_prompt : string) (w : world) (r : OrchestratedResponse) :
  outcome (CollaborativeAgentOrchestrator.run self image_reference user_prompt w) = inr r ->
  components (fashion_analysis r) <> []
  /\ outcome (analyze (CollaborativeAgentOrchestrator._fashion_agent self)
                image_reference user_prompt w) = inr (fashion_analysis r)
  /\ outcome (SustainabilityEstimator.estimate
                (CollaborativeAgentOrchestrator._sustainability_agent self)
                (fashion_analysis r)
                (final_world (analyze (CollaborativeAgentOrchestrator._fashion_agent self)
                                image_reference user_prompt w)))
     = inr (sustainability_estimates r).
Proof.
  rewrite run_steps. unfold estimate, SustainabilityEstimator_agent.
  destruct (analyze _ image_reference user_prompt w) as [[[e|analysis] w1] t1];
    unfold outcome, final_world; simpl; [discriminate|].
  destruct (SustainabilityEstimator.estimate _ analysis w1) as [[[e|est] w2] t2] eqn:Hest;
    simpl; intros Hr; [discriminate|].
  injection Hr as <-. simpl. rewrite Hest. simpl.
  split; [|split; reflexivity].
  intros Hc. unfold SustainabilityEstimator.estimate in Hest.
  rewrite Hc in Hest. discriminate.
Qed.

Lemma combined_result_has_components_witness :
  let E := scripted (inr cotton_response) in
  let self :=
    CollaborativeAgentOrchestrator.mk
      (scripted_analyzer (inr cotton_response)) (scripted_estimator (inr cotton_response)) in
  outcome (CollaborativeAgentOrchestrator.run self "shirt.png" "" 0%nat)
  = inr {| fashion_analysis := cotton_tshirt; sustainability_estimates := default_estimates |}
  /\ components cotton_tshirt <> [].
Proof.
  split; [reflexivity|].
  exact (proj1 (combined_result_has_components (E := scripted (inr cotton_response))
                  (CollaborativeAgentOrchestrator.mk
                     (scripted_analyzer (inr cotton_response))
                     (scripted_estimator (inr cotton_response)))
                  "shirt.png" "" 0%nat
                  {| fashion_analysis := cotton_tshirt;
                     sustainability_estimates := default_estimates |}
                  eq_refl)).
Defined.

(** X9. When the extraction step returns an analysis without
    components, the run raises the estimation step's [ValueError] and
    does nothing after extraction: the final world and the trace are
    those of the extraction step, so no research query and no second
    model call is made. *)
Theorem run_fails_on_empty_extraction {E : External} {A : Type} {FA : FashionAgent A}
    (self : CollaborativeAgentOrchestrator.t A SustainabilityEstimator.t)
    (image_reference user_prompt : string) (w : world) (analysis : FashionAnalysis) :
  outcome (analyze (CollaborativeAgentOrchestrator._fashion_agent self)
             image_reference user_prompt w) = inr analysis ->
  components analysis = [] ->
  CollaborativeAgentOrchestrator.run self image_reference user_prompt w
  = (inl (ValueError "Fashion analysis does not contain any components to estimate."),
     final_world (analyze (CollaborativeAgentOrchestrator._fashion_agent self)
                    image_reference user_prompt w),
     trace (analyze (CollaborativeAgentOrchestrator._fashion_agent self)
              image_reference user_prompt w)).
Proof.
  intros Ha Hc. rewrite run_steps. unfold estimate, SustainabilityEstimator_agent.
  destruct (analyze _ image_reference user_prompt w) as [[ra w1] t1].
  unfold outcome, final_world, trace in *. simpl in *. subst ra.
  unfold SustainabilityEstimator.estimate. rewrite Hc.
  unfold raise. rewrite app_nil_r. reflexivity.
Qed.

Lemma run_fails_on_empty_extraction_witness :
  let E := scripted (inr []) in
  let self :=
    CollaborativeAgentOrchestrator.mk (scripted_analyzer (inr [])) (scripted_estimator (inr [])) in
  outcome (CollaborativeAgentOrchestrator.run self "shirt.png" "" 0%nat)
  = inl (ValueError "Fashion analysis does not contain any components to estimate.")
  /\ research_queries (trace (CollaborativeAgentOrchestrator.run self "shirt.png" "" 0%nat)) = [].
Proof.
  cbv zeta.
  rewrite (run_fails_on_empty_extraction (E := scripted (inr []))
             (FA := FashionMaterialAnalyzer_agent)
             (CollaborativeAgentOrchestrator.mk
                (scripted_analyzer (inr [])) (scripted_estimator (inr [])))
             "shirt.png" "" 0%nat
             {| garment_summary := ""; components := []; total_weight_grams := None |}
             eq_refl eq_refl).
  split; reflexivity.
Defined.

(** ** Conversion of the parsed fields *)

Section ConversionFacts.
Context {E : External}.

Lemma rmapM_inr {X Y : Type} (f : X -> result Y) (l : list X) (ys : list Y) :
  rmapM f l = inr ys ->
  length ys = length l
  /\ forall i x, nth_error l i = Some x ->
       exists y, nth_error ys i = Some y /\ f x = inr y.
Proof.
  revert ys. induction l as [|x0 l IH]; intros ys H.
  - injection H as <-. split; [reflexivity|]. intros [|i] x Hx; discriminate.
  - cbn [rmapM] in H.
    destruct (f x0) as [e|y0] eqn:Hf; [discriminate|]. cbn [rbind] in H.
    destruct (rmapM f l) as [e|ys0]; [discriminate|]. cbn [rbind] in H.
    injection H as <-. destruct (IH ys0 eq_refl) as [Hlen Hnth].
    split; [simpl; rewrite Hlen; reflexivity|].
    intros [|i] x Hx; simpl in Hx |- *.
    + injection Hx as <-. exists y0. split; [reflexivity | exact Hf].
    + apply Hnth. exact Hx.
Qed.

Lemma rmapM_fails {X Y : Type} (f : X -> result Y) (l : list X) (x : X) :
  In x l -> (exists e, f x = inl e) -> exists e, rmapM f l = inl e.
Proof.
  induction l as [|x0 l IH]; intros Hin [e He]; [contradiction|].
  cbn [rmapM]. destruct Hin as [-> | Hin].
  - rewrite He. exists e. reflexivity.
  - destruct (f x0) as [e0|y0]; [exists e0; reflexivity|]. cbn [rbind].
    destruct (IH Hin (ex_intro _ e He)) as [e' ->]. exists e'. reflexivity.
Qed.

Lemma component_of_item_not_dict (v : pyval) :
  (forall d, v <> PDict d) -> exists e, FashionMaterialAnalyzer.component_of_item v = inl e.
Proof.
  intros Hv. destruct v; try (eexists; reflexivity).
  exfalso. exact (Hv d eq_refl).
Qed.

Lemma components_read_back (cs : list MaterialComponent) :
  rmapM FashionMaterialAnalyzer.component_of_item (map asdict_component cs) = inr cs.
Proof.
  induction cs as [|c cs IH]; [reflexivity|].
  cbn [map rmapM]. rewrite IH. destruct c as [n p g]. reflexivity.
Qed.

End ConversionFacts.

(** X10. The components of an extraction result follow the parsed
    list entry by entry: there are as many components as entries, and
    the component at each position is the conversion of the entry at
    that position. *)
Theorem analysis_components_follow_items {E : External}
    (parsed : pydict) (items : list pyval) (analysis : FashionAnalysis) :
  dict_lookup parsed "components" = Some (PList items) ->
  FashionMaterialAnalyzer.analysis_of_parsed parsed = inr analysis ->
  length (components analysis) = length items
  /\ forall i item, nth_error items i = Some item ->
       exists component,
         nth_error (components analysis) i = Some component
         /\ FashionMaterialAnalyzer.component_of_item item = inr component.
Proof.
  intros Hk H.
  destruct (analysis_of_parsed_fields parsed analysis H) as [_ [[items' [Hit Hcs]] _]].
  rewrite (dict_get_present _ _ _ _ Hk) in Hit. simpl in Hit. injection Hit as <-.
  exact (rmapM_inr _ _ _ Hcs).
Qed.

Lemma analysis_components_follow_items_witness :
  length (components cotton_tshirt) = 1%nat.
Proof.
  exact (proj1 (analysis_components_follow_items (E := scripted (inr []))
                  cotton_response
                  [ PDict [ ("name", PStr "cotton");
                            ("percentage", PFloat float_100);
                            ("weight_grams", PFloat float_200) ] ]
                  cotton_tshirt eq_refl eq_refl)).
Defined.

(** X11. One entry of the parsed component list that is not an object
    makes the whole extraction fail: no analysis is produced from the
    other entries. *)
Theorem bad_item_fails_extraction {E : External}
    (parsed : pydict) (items : list pyval) (v : pyval) :
  dict_lookup parsed "components" = Some (PList items) ->
  In v items ->
  (forall d, v <> PDict d) ->
  exists e, FashionMaterialAnalyzer.analysis_of_parsed parsed = inl e.
Proof.
  intros Hk Hin Hv. unfold FashionMaterialAnalyzer.analysis_of_parsed.
  rewrite (dict_get_present _ _ _ _ Hk). cbn [py_iter ok rbind].
  destruct (rmapM_fails FashionMaterialAnalyzer.component_of_item items v Hin
              (component_of_item_not_dict v Hv)) as [e ->].
  exists e. reflexivity.
Qed.

Lemma bad_item_fails_extraction_witness :
  exists e,
    FashionMaterialAnalyzer.analysis_of_parsed (E := scripted (inr [])) bare_names_response
    = inl e.
Proof.
  exact (bad_item_fails_extraction (E := scripted (inr [])) bare_names_response
           [PStr "cotton"] (PStr "cotton") eq_refl (or_introl eq_refl)
           ltac:(discriminate)).
Defined.

(** X12. An explicit null is read differently by the two kinds of
    numeric field.  For the total weight it is the same as a missing
    key: the total is left unset.  For a component's percentage it is
    not replaced by the default: the conversion raises a [TypeError]. *)
Theorem explicit_null_fields {E : External} :
  (forall parsed analysis,
      dict_lookup parsed "total_weight_grams" = Some PNone ->
      FashionMaterialAnalyzer.analysis_of_parsed parsed = inr analysis ->
      total_weight_grams analysis = None)
  /\ (forall item,
        dict_lookup item "percentage" = Some PNone ->
        exists msg, FashionMaterialAnalyzer.component_of_item (PDict item) = inl (TypeError msg)).
Proof.
  split.
  - intros parsed analysis Hk H.
    destruct (analysis_of_parsed_fields parsed analysis H) as [_ [_ Htw]].
    rewrite (dict_get_present _ _ _ _ Hk) in Htw. exact Htw.
  - intros item Hk. unfold FashionMaterialAnalyzer.component_of_item.
    cbn [py_get ok rbind]. rewrite (dict_get_present _ _ _ _ Hk).
    eexists. reflexivity.
Qed.

Lemma explicit_null_fields_witness :
  total_weight_grams partial_analysis = None
  /\ exists msg,
       FashionMaterialAnalyzer.component_of_item (E := scripted (inr []))
         (PDict null_percentage_item) = inl (TypeError msg).
Proof.
  split.
  - exact (proj1 (explicit_null_fields (E := scripted (inr [])))
             null_total_response partial_analysis eq_refl eq_refl).
  - exact (proj2 (explicit_null_fields (E := scripted (inr [])))
             null_percentage_item eq_refl).
Defined.

(** X13. The package's own conversions read back what [to_dict]
    writes: the entries under [fashion_analysis] are converted to the
    analysis of the combined result, and the entries under
    [sustainability_estimates] to its estimates. *)
Theorem conversions_read_back_to_dict {E : External} (r : OrchestratedResponse) :
  exists analysis_entries estimates_entries,
    to_dict r = PDict [ ("fashion_analysis", PDict analysis_entries);
                        ("sustainability_estimates", PDict estimates_entries) ]
    /\ FashionMaterialAnalyzer.analysis_of_parsed analysis_entries = inr (fashion_analysis r)
    /\ SustainabilityEstimator.estimates_of_parsed estimates_entries
       = inr (sustainability_estimates r).
Proof.
  destruct r as [[s cs tw] [wl co2 en notes ctx]].
  eexists _, _. split; [reflexivity|]. split.
  - unfold FashionMaterialAnalyzer.analysis_of_parsed.
    cbn -[rmapM map]. rewrite components_read_back.
    destruct tw as [f|]; reflexivity.
  - reflexivity.
Qed.

(** X14. The material analysis shown to the estimation model is the
    [fashion_analysis] part of the serialised result: [to_dict] of a
    combined result holds, under that key, the very dictionary the
    estimation step built for its prompt. *)
Theorem model_sees_serialised_analysis {E : External}
    (analysis : FashionAnalysis) (estimates : SustainabilityEstimates) :
  to_dict {| fashion_analysis := analysis; sustainability_estimates := estimates |}
  = PDict [ ("fashion_analysis", SustainabilityEstimator.analysis_json analysis);
            ("sustainability_estimates", asdict_estimates estimates) ].
Proof.
  unfold to_dict, SustainabilityEstimator.analysis_json. cbn [fashion_analysis sustainability_estimates].
  destruct (total_weight_grams analysis); reflexivity.
Qed.

(** ** Construction of the agents and of the orchestrator *)

(** X15. Injected collaborators make the credentials irrelevant: with
    an injected client (and, for the estimator, an injected search
    tool) construction succeeds for every configuration, keeps the
    injected objects as they are and touches nothing; an orchestrator
    given both agents keeps them without constructing anything. *)
Theorem injected_collaborators_need_no_credentials {E : External}
    (settings : Settings) (w : world) :
  (forall client,
      FashionMaterialAnalyzer.__init__ settings (Some client) w
      = (inr {| FashionMaterialAnalyzer._llm := client;
                FashionMaterialAnalyzer._parser := FashionMaterialAnalyzer._build_parser;
                FashionMaterialAnalyzer._prompt :=
                  FashionMaterialAnalyzer._build_prompt FashionMaterialAnalyzer._build_parser |},
         w, []))
  /\ (forall client tool,
        SustainabilityEstimator.__init__ settings (Some client) (Some tool) w
        = (inr {| SustainabilityEstimator._llm := client;
                  SustainabilityEstimator._parser := SustainabilityEstimator._build_parser;
                  SustainabilityEstimator._prompt :=
                    SustainabilityEstimator._build_prompt
                      SustainabilityEstimator._build_parser;
                  SustainabilityEstimator._search_tool := tool |},
           w, []))
  /\ (forall fashion_agent sustainability_agent,
        CollaborativeAgentOrchestrator.__init__ settings
          (Some fashion_agent) (Some sustainability_agent) w
        = (inr (CollaborativeAgentOrchestrator.mk fashion_agent sustainability_agent), w, [])).
Proof. repeat split. Qed.

(** X16. Default construction of the orchestrator fails fast without
    the model credential.  The extraction agent is built first: when it
    is not injected the error names it, whether or not an estimation
    agent was injected; when only the estimation agent is missing the
    error names that one.  Nothing is called in either case. *)
Theorem orchestrator_construction_fails_fast {E : External}
    (settings : Settings) (w : world) :
  truthy (openai_api_key settings) = false ->
  (forall sustainability_agent,
      CollaborativeAgentOrchestrator.__init__ settings None sustainability_agent w
      = (inl (RuntimeError
                "OPENAI_API_KEY is required to instantiate FashionMaterialAnalyzer."),
         w, []))
  /\ (forall fashion_agent,
        CollaborativeAgentOrchestrator.__init__ settings (Some fashion_agent) None w
        = (inl (RuntimeError
                  "OPENAI_API_KEY is required to instantiate SustainabilityEstimator."),
           w, [])).
Proof.
  intros Hkey. split.
  - intros sa. unfold CollaborativeAgentOrchestrator.__init__, FashionMaterialAnalyzer.__init__.
    rewrite Hkey. reflexivity.
  - intros fa. unfold CollaborativeAgentOrchestrator.__init__, SustainabilityEstimator.__init__.
    rewrite Hkey. reflexivity.
Qed.

Lemma orchestrator_construction_fails_fast_witness :
  truthy (openai_api_key no_credentials) = false
  /\ CollaborativeAgentOrchestrator.__init__ (E := scripted (inr [])) no_credentials
       None None 0%nat
     = (inl (RuntimeError
               "OPENAI_API_KEY is required to instantiate FashionMaterialAnalyzer."),
        0%nat, []).
Proof.
  split; [reflexivity|].
  exact (proj1 (orchestrator_construction_fails_fast (E := scripted (inr []))
                  no_credentials 0%nat eq_refl) None).
Defined.

(** X17. With the model credential, default construction of the
    orchestrator succeeds without any call and wires the configuration
    through: the extraction client is built for the configured
    extraction model at temperature 0, the estimation client for the
    configured estimation model at temperature 0.2, both with the
    credential, and the search tool is built from the search credential
    with a cap of five results. *)
Theorem orchestrator_default_construction {E : External}
    (settings : Settings) (w : world) :
  truthy (openai_api_key settings) = true ->
  exists orchestrator,
    CollaborativeAgentOrchestrator.__init__ settings None None w = (inr orchestrator, w, [])
    /\ FashionMaterialAnalyzer._llm
         (CollaborativeAgentOrchestrator._fashion_agent orchestrator)
       = ChatOpenAI (fashion_analyzer_model settings) (PInt 0)
           (key_text (openai_api_key settings))
    /\ SustainabilityEstimator._llm
         (CollaborativeAgentOrchestrator._sustainability_agent orchestrator)
       = ChatOpenAI (sustainability_analyzer_model settings) (PFloat float_0_2)
           (key_text (openai_api_key settings))
    /\ SustainabilityEstimator._search_tool
         (CollaborativeAgentOrchestrator._sustainability_agent orchestrator)
       = SustainabilityWebSearchTool.__init__ (tavily_api_key settings) 5.
Proof.
  intros Hkey.
  unfold CollaborativeAgentOrchestrator.__init__, FashionMaterialAnalyzer.__init__,
    SustainabilityEstimator.__init__.
  rewrite Hkey. eexists. split; [reflexivity|]. repeat split.
Qed.

Lemma orchestrator_default_construction_witness :
  truthy (openai_api_key openai_only) = true
  /\ exists orchestrator,
       CollaborativeAgentOrchestrator.__init__ (E := scripted (inr [])) openai_only
         None None 0%nat = (inr orchestrator, 0%nat, [])
       /\ SustainabilityWebSearchTool._tool
            (SustainabilityEstimator._search_tool
               (CollaborativeAgentOrchestrator._sustainability_agent orchestrator))
          = disabled_tool.
Proof.
  split; [reflexivity|].
  destruct (orchestrator_default_construction (E := scripted (inr [])) openai_only 0%nat
              eq_refl) as [orchestrator [Hinit [_ [_ Htool]]]].
  exists orchestrator. split; [exact Hinit|]. rewrite Htool. reflexivity.
Defined.

(** X18. An orchestrator whose estimator holds the disabled search
    tool never contacts the search provider: a run makes at most two
    outbound calls, and both are model calls. *)
Theorem run_without_search_stays_local {E : External}
    (self : CollaborativeAgentOrchestrator.t FashionMaterialAnalyzer.t SustainabilityEstimator.t)
    (image_reference user_prompt : string) (w : world) :
  SustainabilityWebSearchTool._tool
    (SustainabilityEstimator._search_tool
       (CollaborativeAgentOrchestrator._sustainability_agent self)) = disabled_tool ->
  let t := trace (CollaborativeAgentOrchestrator.run self image_reference user_prompt w) in
  provider_requests t = []
  /\ (length (outbound_calls t) <= 2)%nat
  /\ length (outbound_calls t) = length (model_calls t).
Proof.
  intros Htool t. subst t. rewrite run_trace.
  destruct (outcome_of_reply _ _ _) as [e|analysis]; [simpl; repeat split; lia|].
  destruct (components analysis) as [|c cs] eqn:Hc.
  - unfold SustainabilityEstimator.estimate. rewrite Hc. simpl. repeat split; lia.
  - assert (Hne : components analysis <> []) by (rewrite Hc; discriminate).
    rewrite (estimate_run _ analysis _ Hne), Htool. simpl. repeat split; lia.
Qed.

Lemma run_without_search_stays_local_witness :
  let E := scripted (inr cotton_response) in
  let self :=
    CollaborativeAgentOrchestrator.mk
      (scripted_analyzer (inr cotton_response)) (scripted_estimator (inr cotton_response)) in
  provider_requests (trace (CollaborativeAgentOrchestrator.run self "shirt.png" "" 0%nat)) = [].
Proof.
  exact (proj1 (run_without_search_stays_local (E := scripted (inr cotton_response))
                  (CollaborativeAgentOrchestrator.mk
                     (scripted_analyzer (inr cotton_response))
                     (scripted_estimator (inr cotton_response)))
                  "shirt.png" "" 0%nat eq_refl)).
Defined.

(** ** The image helper and the entry point *)

Section HostFacts.
Context {E : External} {HO : Host}.

Lemma outputs_app (t1 t2 : list host_event) :
  outputs (t1 ++ t2) = (outputs t1 ++ outputs t2)%list.
Proof. unfold outputs. apply filter_app. Qed.

Lemma outputs_agent_events (t : list event) : outputs (map AgentEvent t) = [].
Proof. induction t as [|ev t IH]; [reflexivity | exact IH]. Qed.

Lemma str_or_nonempty (s default : string) : default <> "" -> str_or s default <> "".
Proof. intros Hd. destruct s; simpl; [exact Hd | discriminate]. Qed.

Lemma detect_mime_type_nonempty (path : string) : _detect_mime_type path <> "".
Proof.
  unfold _detect_mime_type. destruct (guess_type path) as [m|]; [|discriminate].
  apply str_or_nonempty. discriminate.
Qed.

(** The three ways [build_data_uri] can end. *)
Lemma build_data_uri_cases (image_path : string) (w : world) :
  let path := path_resolve image_path w in
  build_data_uri image_path w
  = if negb (path_exists path w) then
      (inl (FileNotFoundError ("Image not found: " ++ path)), w, [])
    else
      match read_bytes path w with
      | inl text => (inl (OSError text), w, [FileRead path])
      | inr data =>
          (inr ("data:" ++ _detect_mime_type path ++ ";base64," ++ b64encode data),
           w, [FileRead path])
      end.
Proof.
  intros path. unfold build_data_uri, hbind, encode_image_to_base64, hret. fold path.
  destruct (negb (path_exists path w)); [reflexivity|].
  destruct (read_bytes path w) as [text|data]; reflexivity.
Qed.

Lemma normalize_outputs (image : string) (w : world) :
  outputs (htrace (normalize_image_reference image w)) = []
  /\ hworld (normalize_image_reference image w) = w.
Proof.
  unfold normalize_image_reference.
  destruct (path_exists (path_str image) w); [|split; reflexivity].
  rewrite build_data_uri_cases.
  destruct (negb (path_exists _ w)); [split; reflexivity|].
  destruct (read_bytes _ w); split; reflexivity.
Qed.

End HostFacts.

(** X19. The image helper fails before reading when the resolved path
    does not exist: it raises [FileNotFoundError] whose text names the
    resolved path, and no file is read. *)
Theorem build_data_uri_missing_file {E : External} {HO : Host}
    (image_path : string) (w : world) :
  path_exists (path_resolve image_path w) w = false ->
  build_data_uri image_path w
  = (inl (FileNotFoundError ("Image not found: " ++ path_resolve image_path w)), w, [])
  /\ encode_image_to_base64 image_path w
     = (inl (FileNotFoundError ("Image not found: " ++ path_resolve image_path w)), w, []).
Proof.
  intros Hex. split.
  - rewrite build_data_uri_cases. rewrite Hex. reflexivity.
  - unfold encode_image_to_base64. rewrite Hex. reflexivity.
Qed.

Lemma build_data_uri_missing_file_witness :
  build_data_uri (E := scripted (inr [])) (HO := scripted_host (inr []) shirt_png None)
    "trousers.png" 0%nat
  = (inl (FileNotFoundError "Image not found: trousers.png"), 0%nat, []).
Proof.
  exact (proj1 (build_data_uri_missing_file (E := scripted (inr []))
                  (HO := scripted_host (inr []) shirt_png None) "trousers.png" 0%nat
                  eq_refl)).
Defined.

(** X20. The MIME type of a data URI is never empty: it is the guessed
    type when the guess is a non-empty string, and
    [application/octet-stream] when there is no guess. *)
Theorem detect_mime_type_fallback {E : External} {HO : Host} (path : string) :
  _detect_mime_type path <> ""
  /\ (guess_type path = None -> _detect_mime_type path = "application/octet-stream")
  /\ (forall c rest,
        guess_type path = Some (String c rest) -> _detect_mime_type path = String c rest).
Proof.
  split; [apply detect_mime_type_nonempty|]. split.
  - intros Hg. unfold _detect_mime_type. rewrite Hg. reflexivity.
  - intros c rest Hg. unfold _detect_mime_type. rewrite Hg. reflexivity.
Qed.

Lemma detect_mime_type_fallback_witness :
  _detect_mime_type (E := scripted (inr [])) (HO := scripted_host (inr []) shirt_png None)
    "shirt.png"
  = "application/octet-stream".
Proof.
  exact (proj1 (proj2 (detect_mime_type_fallback (E := scripted (inr []))
                         (HO := scripted_host (inr []) shirt_png None) "shirt.png"))
           eq_refl).
Defined.



Section MainFacts.
Context {E : External} {HO : Host}.

Lemma emit_payload_cases (args : Namespace) (payload : pyval) (w : world) :
  (houtcome (emit_payload args payload w) = inr tt
   /\ htrace (emit_payload args payload w)
      = match output args with
        | Some out =>
            [ FileWritten (path_str out) (json_dumps payload 2);
              Printed ("Results written to " ++ path_str out) ]
        | None => [ Printed (json_dumps payload 2) ]
        end)
  \/ (exists e, houtcome (emit_payload args payload w) = inl e
                /\ htrace (emit_payload args payload w) = []).
Proof.
  unfold emit_payload. destruct (output args) as [out|].
  - unfold hbind, path_write_text, print.
    destruct (write_text (path_str out) (json_dumps payload 2) w) as [[err|] w1].
    + right. eexists. split; reflexivity.
    + left. split; reflexivity.
  - left. split; reflexivity.
Qed.

(** [main], stage by stage. *)
Lemma main_stages (settings : Settings) (args : Namespace) (w : world) :
  main settings args w
  = match CollaborativeAgentOrchestrator.__init__ settings None None w with
    | (inl e, w1, t1) => (inl (AgentError e), w1, map AgentEvent t1)
    | (inr orchestrator, w1, t1) =>
        match normalize_image_reference (image args) w1 with
        | (inl e, w2, t2) => (inl e, w2, (map AgentEvent t1 ++ t2)%list)
        | (inr image_reference, w2, t2) =>
            match CollaborativeAgentOrchestrator.run orchestrator image_reference
                    (prompt args) w2 with
            | (inl e, w3, t3) =>
                (inl (AgentError e), w3,
                 (map AgentEvent t1 ++ t2 ++ map AgentEvent t3)%list)
            | (inr response, w3, t3) =>
                (houtcome (emit_payload args (to_dict response) w3),
                 hworld (emit_payload args (to_dict response) w3),
                 (map AgentEvent t1 ++ t2 ++ map AgentEvent t3
                  ++ htrace (emit_payload args (to_dict response) w3))%list)
            end
        end
    end.
Proof.
  unfold main. fold (emit_payload args).
  unfold hbind at 1. unfold agents at 1.
  destruct (CollaborativeAgentOrchestrator.__init__ settings None None w)
    as [[[e|orchestrator] w1] t1]; [reflexivity|].
  unfold hbind at 1.
  destruct (normalize_image_reference (image args) w1) as [[[e|image_reference] w2] t2];
    [reflexivity|].
  unfold hbind at 1. unfold agents at 1.
  destruct (CollaborativeAgentOrchestrator.run orchestrator image_reference (prompt args) w2)
    as [[[e|response] w3] t3]; [reflexivity|].
  fold (emit_payload args (to_dict response)).
  destruct (emit_payload args (to_dict response) w3) as [[r w4] t4]. reflexivity.
Qed.

End MainFacts.

(** X22. Without the model credential the entry point fails before
    doing anything: it raises the extraction agent's credential error,
    reads no file, calls no provider, writes and prints nothing. *)
Theorem main_without_model_credential {E : External} {HO : Host}
    (settings : Settings) (args : Namespace) (w : world) :
  truthy (openai_api_key settings) = false ->
  main settings args w
  = (inl (AgentError
            (RuntimeError "OPENAI_API_KEY is required to instantiate FashionMaterialAnalyzer.")),
     w, []).
Proof.
  intros Hkey. rewrite main_stages.
  unfold CollaborativeAgentOrchestrator.__init__, FashionMaterialAnalyzer.__init__.
  rewrite Hkey. reflexivity.
Qed.

Lemma main_without_model_credential_witness :
  truthy (openai_api_key no_credentials) = false
  /\ main (E := scripted (inr [])) (HO := scripted_host (inr []) shirt_png None)
       no_credentials {| image := "shirt.png"; prompt := ""; output := None |} 0%nat
     = (inl (AgentError
               (RuntimeError
                  "OPENAI_API_KEY is required to instantiate FashionMaterialAnalyzer.")),
        0%nat, []).
Proof.
  split; [reflexivity|].
  exact (main_without_model_credential (E := scripted (inr []))
           (HO := scripted_host (inr []) shirt_png None) no_credentials
           {| image := "shirt.png"; prompt := ""; output := None |} 0%nat eq_refl).
Defined.



(** X24. When the entry point succeeds, its output is the JSON text of
    [to_dict] of one combined result, rendered with indent 2: printed
    once when no output path was given; otherwise written once to that
    path and followed by the line that names the path.  That combined
    result has at least one component. *)
Theorem main_success_output {E : External} {HO : Host}
    (settings : Settings) (args : Namespace) (w : world) :
  houtcome (main settings args w) = inr tt ->
  exists response,
    components (fashion_analysis response) <> []
    /\ outputs (htrace (main settings args w))
       = match output args with
         | Some out =>
             [ FileWritten (path_str out) (json_dumps (to_dict response) 2);
               Printed ("Results written to " ++ path_str out) ]
         | None => [ Printed (json_dumps (to_dict response) 2) ]
         end.
Proof.
  rewrite main_stages.
  destruct (CollaborativeAgentOrchestrator.__init__ settings None None w)
    as [[[e1|orchestrator] w1] t1]; [discriminate|].
  pose proof (normalize_outputs (image args) w1) as [Hn _].
  destruct (normalize_image_reference (image args) w1) as [[[e2|image_reference] w2] t2];
    [discriminate|].
  destruct (CollaborativeAgentOrchestrator.run orchestrator image_reference (prompt args) w2)
    as [[[e3|response] w3] t3] eqn:Hrun; [discriminate|].
  unfold houtcome at 1, htrace at 1. simpl. intros Hok.
  exists response. split.
  - intros Hc.
    assert (Hout : outcome (CollaborativeAgentOrchestrator.run orchestrator image_reference
                              (prompt args) w2) = inr response)
      by (rewrite Hrun; reflexivity).
    revert Hout. rewrite run_steps. unfold estimate, SustainabilityEstimator_agent.
    destruct (analyze _ image_reference (prompt args) w2) as [[[e|analysis] w'] t'];
      unfold outcome; simpl; [discriminate|].
    destruct (SustainabilityEstimator.estimate _ analysis w') as [[[e|est] w''] t''] eqn:Hest;
      simpl; intros Hr; [discriminate|].
    injection Hr as <-. simpl in Hc.
    unfold SustainabilityEstimator.estimate in Hest. rewrite Hc in Hest. discriminate.
  - unfold htrace in Hn. simpl in Hn.
    rewrite !outputs_app, !outputs_agent_events, Hn. simpl.
    destruct (emit_payload_cases args (to_dict response) w3)
      as [[_ Ht] | [e4 [He _]]].
    + rewrite Ht. destruct (output args); reflexivity.
    + rewrite He in Hok. discriminate.
Qed.

Lemma main_success_output_witness :
  outputs
    (htrace (main (E := scripted (inr cotton_response))
               (HO := scripted_host (inr cotton_response) shirt_png None)
               openai_only
               {| image := "shirt.png"; prompt := ""; output := Some "result.json" |}
               0%nat))
  = [ FileWritten "result.json" "{}"; Printed "Results written to result.json" ].
Proof.
  destruct (main_success_output (E := scripted (inr cotton_response))
              (HO := scripted_host (inr cotton_response) shirt_png None)
              openai_only
              {| image := "shirt.png"; prompt := ""; output := Some "result.json" |}
              0%nat eq_refl) as [response [_ Hout]].
  exact Hout.
Defined.
